(** * ogr.services.pagure.project: the Pagure project client

    A shallow embedding of [PagureProject] (src/ogr/services/pagure/project.py)
    and the properties its specification states about it.

    Python values coming out of the forge's JSON are modelled by [json];
    dictionaries are finite maps with string keys.  Methods are computations
    in a state-and-exception monad [M]: the state holds the forge (the
    remote side, behind [service.call_api] and friends), the trace of the
    calls made to it, and the object the method runs on ([this], Python's
    [self], whose [_username] attribute is filled in lazily). *)

From Stdlib Require Import ZArith String Ascii.
From stdpp Require Import gmap strings list fin_maps.

Set Warnings "-register-all,-clear-no-such-hyp".
Local Open Scope string_scope.
Local Open Scope list_scope.

(** ** Python values *)

(** The values a decoded JSON document is made of; [JNull] is Python's
    [None].  Numbers are integers (no forge field read by this module is a
    float). *)
Inductive json : Type :=
| JNull
| JBool (b : bool)
| JNum (n : Z)
| JStr (s : string)
| JList (l : list json)
| JDict (d : gmap string json).

(** The exceptions this module raises, catches or lets through. *)
Inductive exn : Type :=
| KeyError (key : string)
| TypeError
| AttributeError (attr : string)
| UnicodeDecodeError
| FileNotFoundError (msg : string) (cause : option exn)
| OurPagureRawRequest (msg : string)
| PagureAPIException (msg : string)
| OgrException (msg : string)
| OperationNotSupported (msg : string)
| OtherError (msg : string).

Definition result (A : Type) : Type := exn + A.

(** [bool(x)]: Python's truth value. *)
Definition truthy (j : json) : bool :=
  match j with
  | JNull => false
  | JBool b => b
  | JNum n => negb (n =? 0)%Z
  | JStr s => negb (String.eqb s "")
  | JList l => match l with [] => false | _ => true end
  | JDict d => negb (bool_decide (d = ∅))
  end.

(** [x[key]] for a string key. *)
Definition getitem (j : json) (key : string) : result json :=
  match j with
  | JDict d => match d !! key with
               | Some v => inr v
               | None => inl (KeyError key)
               end
  | _ => inl TypeError
  end.

(** [x.items()]: only dictionaries have the method.  The order of the pairs
    is the dictionary's iteration order, here the one of [map_to_list]. *)
Definition items (j : json) : result (list (string * json)) :=
  match j with
  | JDict d => inr (map_to_list d)
  | _ => inl (AttributeError "items")
  end.

(** What a Python [set] can hold of these values.  [True] and [1] (and
    [False] and [0]) are the same element of a set. *)
Inductive hashable : Type :=
| HNone
| HInt (n : Z)
| HStr (s : string).

#[global] Instance hashable_eq_dec : EqDecision hashable.
Proof. solve_decision. Defined.

#[global] Instance hashable_countable : Countable hashable.
Proof.
  refine (inj_countable'
    (fun h => match h with
              | HNone => inl ()
              | HInt n => inr (inl n)
              | HStr s => inr (inr s)
              end)
    (fun c => match c with
              | inl _ => HNone
              | inr (inl n) => HInt n
              | inr (inr s) => HStr s
              end) _).
  by intros [].
Defined.

Definition hash (j : json) : result hashable :=
  match j with
  | JNull => inr HNone
  | JBool b => inr (HInt (if b then 1 else 0))
  | JNum n => inr (HInt n)
  | JStr s => inr (HStr s)
  | JList _ | JDict _ => inl TypeError
  end.

Fixpoint chars (s : string) : list string :=
  match s with
  | EmptyString => []
  | String c s' => String c EmptyString :: chars s'
  end.

Fixpoint hash_all (l : list json) : result (list hashable) :=
  match l with
  | [] => inr []
  | j :: l' =>
      match hash j with
      | inl e => inl e
      | inr h => match hash_all l' with
                 | inl e => inl e
                 | inr hs => inr (h :: hs)
                 end
      end
  end.

(** [for x in j]: the members of a list, the characters of a string, the
    keys of a dictionary; anything else is not iterable. *)
Definition iter_json (j : json) : result (list json) :=
  match j with
  | JList l => inr l
  | JStr s => inr (JStr <$> chars s)
  | JDict d => inr (JStr <$> (map_to_list d).*1)
  | _ => inl TypeError
  end.

(** [s.update(x)] *)
Definition set_update (s : gset hashable) (j : json) : result (gset hashable) :=
  match iter_json j with
  | inl e => inl e
  | inr l => match hash_all l with
             | inl e => inl e
             | inr hs => inr (s ∪ list_to_set hs)
             end
  end.

(** [needle in hay] on strings: the substring test. *)
Fixpoint str_contains (needle hay : string) : bool :=
  String.prefix needle hay ||
  match hay with
  | EmptyString => false
  | String _ hay' => str_contains needle hay'
  end.

(** [name in x] for a string [name]. *)
Definition contains (name : string) (j : json) : result bool :=
  match j with
  | JStr s => inr (str_contains name s)
  | JList l => inr (existsb (fun x => match x with
                                      | JStr s => String.eqb name s
                                      | _ => false
                                      end) l)
  | JDict d => inr (bool_decide (is_Some (d !! name)))
  | _ => inl TypeError
  end.

(** ** Value objects *)

(** [ogr.abstract.CommitFlag] *)
Record CommitFlag : Type := {
  flag_commit : json;
  flag_comment : json;
  flag_state : json;
  flag_context : json;
  flag_url : json;
  flag_uid : json;
}.

(** [ogr.abstract.GitTag] *)
Record GitTag : Type := {
  name : string;
  commit_sha : json;
}.

(** [ogr.utils.RequestResponse], as far as this module reads it. *)
Record RequestResponse : Type := {
  ok : bool;
  reason : option string;
  content : list Byte.byte;
}.

(** The keyword arguments of [service.call_api] and [service.call_api_raw]. *)
Record request : Type := {
  url : string;
  method : option string;
  params : option (gmap string json);
  data : option (gmap string json);
}.

(** What the outside sees of a run: the calls this module makes through the
    service, the look-ups of the user name together with the requests each
    of them sent (the look-up is code of the package outside this module,
    and may itself go to the forge), and the log. *)
Inductive event : Type :=
| CallApi (r : request)
| CallApiRaw (r : request)
| GetUsername (sent : list request)
| LogInfo (msg : string).

Definition posts (r : request) : bool :=
  match method r with
  | Some m => String.eqb m "POST"
  | None => false
  end.

(** An event that put a POST on the wire, whoever sent it. *)
Definition is_post (e : event) : bool :=
  match e with
  | CallApi r | CallApiRaw r => posts r
  | GetUsername sent => existsb posts sent
  | LogInfo _ => false
  end.

(** A POST this module sent itself, through [call_api] or [call_api_raw];
    what a look-up of the user name sent is not counted. *)
Definition own_post (e : event) : bool :=
  match e with
  | CallApi r | CallApiRaw r => posts r
  | GetUsername _ | LogInfo _ => false
  end.

(** ** The project handle *)

Record PagureService : Type := {
  api_url : string;
  instance_url : string;
  service_read_only : bool;
}.

Record PagureProject : Type := {
  repo : string;
  namespace : option string;
  _username : option string;
  _is_fork : bool;
  read_only : bool;
}.

(** The handle's fields hold what the constructor declares ([repo: str],
    [namespace: Optional[str]], [username: str = None]).  Where a handle is
    built from a forge answer, a value of another shape is refused on the
    spot with [TypeError]; Python would carry it along until the URL is
    joined. *)
Definition as_str (j : json) : result string :=
  match j with
  | JStr s => inr s
  | _ => inl TypeError
  end.

Definition as_optional_str (j : json) : result (option string) :=
  match j with
  | JNull => inr None
  | JStr s => inr (Some s)
  | _ => inl TypeError
  end.

Definition of_optional_str (o : option string) : json :=
  match o with
  | Some s => JStr s
  | None => JNull
  end.

(** [url.split("/")] *)
Fixpoint segments (s : string) : list string :=
  match s with
  | EmptyString => [""]
  | String c s' =>
      if Ascii.eqb c "/" then "" :: segments s'
      else match segments s' with
           | seg :: rest => String c seg :: rest
           | [] => [String c ""]
           end
  end.

(** ** A small forge to run the methods against

    One project, rpms/ogr, with a tag and one user per access level, and
    alice's fork of it, which answers but whose info names no parent. *)
Module Demo.

Definition pagure_io : PagureService :=
  {| api_url := "https://pagure.io/api/0";
     instance_url := "https://pagure.io";
     service_read_only := false |}.

Definition ogr : PagureProject :=
  {| repo := "ogr"; namespace := Some "rpms"; _username := None;
     _is_fork := false; read_only := false |}.

Definition ogr_read_only : PagureProject :=
  {| repo := "ogr"; namespace := Some "rpms"; _username := None;
     _is_fork := false; read_only := true |}.

Definition alices_fork : PagureProject :=
  {| repo := "ogr"; namespace := Some "rpms"; _username := Some "alice";
     _is_fork := true; read_only := false |}.

(** A project whose namespace happens to be called fork. *)
Definition fork_ogr : PagureProject :=
  {| repo := "ogr"; namespace := Some "fork"; _username := None;
     _is_fork := false; read_only := false |}.

Definition ogr_info : json :=
  JDict {[ "access_users" :=
             JDict {[ "admin" := JList [JStr "a"];
                      "commit" := JList [JStr "b"];
                      "ticket" := JList [JStr "c"];
                      "owner" := JList [JStr "d"] ]};
           "parent" := JNull;
           "user" := JDict {[ "name" := JStr "pingou" ]} ]}.

Definition ogr_tags : json :=
  JDict {[ "tags" := JDict {[ "v1.0" := JStr "abc123" ]} ]}.

Definition ogr_flag : json :=
  JDict {[ "flag" := JDict {[ "commit_hash" := JStr "sha1";
                              "comment" := JStr "d";
                              "status" := JStr "success";
                              "username" := JStr "ctx";
                              "url" := JStr "u" ]};
           "uid" := JStr "f00" ]}.

Definition call_api (r : request) (w : unit) : result json * unit :=
  if String.eqb (url r) "https://pagure.io/api/0/rpms/ogr" then
    (inr ogr_info, w)
  else if String.eqb (url r) "https://pagure.io/api/0/fork/alice/rpms/ogr" then
    (inr ogr_info, w)
  else if String.eqb (url r) "https://pagure.io/api/0/rpms/ogr/git/tags" then
    (inr ogr_tags, w)
  else if String.eqb (url r) "https://pagure.io/api/0/rpms/ogr/c/sha1/flag" then
    (inr ogr_flag, w)
  else (inl (OtherError "no such endpoint"), w).

Definition call_api_raw (r : request) (w : unit)
    : result (option RequestResponse) * unit :=
  if String.eqb (url r) "https://pagure.io/api/0/fork/alice/rpms/ogr" then
    (inr (Some {| ok := true; reason := Some "OK"; content := [] |}), w)
  else if String.eqb (url r) "https://pagure.io/rpms/ogr/raw/master/f/README.md" then
    (inr (Some {| ok := true; reason := Some "OK";
                  content := list_byte_of_string "# ogr" |}), w)
  else if String.eqb (url r) "https://pagure.io/rpms/ogr/raw/master/f/down" then
    (inl (OurPagureRawRequest "connection reset"), w)
  else if String.eqb (url r) "https://pagure.io/rpms/ogr/raw/master/f/void" then
    (inr None, w)
  else
    (inr (Some {| ok := false; reason := Some "NOT FOUND"; content := [] |}), w).

(** The look-up of the user name asks the forge who the token belongs to,
    with a POST. *)
Definition whoami : request :=
  {| url := "https://pagure.io/api/0/-/whoami"; method := Some "POST";
     params := None; data := Some ∅ |}.

Definition get_username (w : unit) : result string * list request * unit :=
  (inr "alice", [whoami], w).

Definition decode (b : list Byte.byte) : option string :=
  Some (string_of_list_byte b).

End Demo.

(** ** A second forge

    The same project on a forge that lists one fork of it, alice2's, that
    answers tags as a bare list of names, and that accepts a new fork. *)
Module Lab.

Definition fork_info : json :=
  JDict {[ "user" := JDict {[ "name" := JStr "alice2" ]};
           "parent" := JDict {[ "namespace" := JStr "rpms" ]} ]}.

Definition flag_a : json :=
  JDict {[ "commit_hash" := JStr "sha1"; "comment" := JStr "built";
           "status" := JStr "success"; "username" := JStr "ci";
           "url" := JStr "https://ci/1" ]}.

Definition flag_b : json :=
  JDict {[ "commit_hash" := JStr "sha1"; "comment" := JStr "tested";
           "status" := JStr "failure"; "username" := JStr "tests";
           "url" := JStr "https://ci/2" ]}.

(** A flag the forge sent without its url. *)
Definition flag_short : json :=
  JDict {[ "commit_hash" := JStr "sha2"; "comment" := JStr "built";
           "status" := JStr "success"; "username" := JStr "ci" ]}.

Definition call_api (r : request) (w : unit) : result json * unit :=
  if String.eqb (url r) "https://pagure.io/api/0/rpms/ogr" then
    (inr Demo.ogr_info, w)
  else if String.eqb (url r) "https://pagure.io/api/0/rpms/ogr/git/tags" then
    (inr (JDict {[ "tags" := JList [JStr "v1.0"] ]}), w)
  else if String.eqb (url r) "https://pagure.io/api/0/rpms/ogr/c/sha1/flag" then
    (inr (JDict {[ "flags" := JList [flag_a; flag_b] ]}), w)
  else if String.eqb (url r) "https://pagure.io/api/0/rpms/ogr/c/sha2/flag" then
    (inr (JDict {[ "flags" := JList [flag_a; flag_short] ]}), w)
  else if String.eqb (url r) "https://pagure.io/api/0/projects" then
    (inr (JDict {[ "projects" :=
                     JList [JDict {[ "name" := JStr "ogr";
                                     "namespace" := JStr "rpms";
                                     "user" := JDict {[ "name" := JStr "alice2" ]} ]}] ]}),
     w)
  else if String.eqb (url r) "https://pagure.io/api/0/fork/alice2/rpms/ogr" then
    (inr fork_info, w)
  else if String.eqb (url r) "https://pagure.io/api/0/fork/alice/rpms/ogr" then
    (inr fork_info, w)
  else if String.eqb (url r) "https://pagure.io/api/0/fork" then
    (inr (JDict ∅), w)
  else (inl (OtherError "no such endpoint"), w).

Definition call_api_raw (r : request) (w : unit)
    : result (option RequestResponse) * unit :=
  if String.eqb (url r) "https://pagure.io/api/0/rpms/ogr" then
    (inr (Some {| ok := true; reason := Some "OK"; content := [] |}), w)
  else if String.eqb (url r) "https://pagure.io/api/0/rpms/down" then
    (inl (OurPagureRawRequest "connection reset"), w)
  else if String.eqb (url r) "https://pagure.io/api/0/rpms/void" then
    (inr None, w)
  else
    (inr (Some {| ok := false; reason := Some "NOT FOUND"; content := [] |}), w).

Definition alice2s_fork : PagureProject :=
  {| repo := "ogr"; namespace := Some "rpms"; _username := Some "alice2";
     _is_fork := true; read_only := false |}.

Definition down : PagureProject :=
  {| repo := "down"; namespace := Some "rpms"; _username := None;
     _is_fork := false; read_only := false |}.

Definition void : PagureProject :=
  {| repo := "void"; namespace := Some "rpms"; _username := None;
     _is_fork := false; read_only := false |}.

End Lab.

Section Project.

(** The collaborators: the forge behind the service object, Python's
    [bytes.decode], and the classes of the package this module calls
    into.  The look-up of the user name, [service.user.get_username], is
    one of them: besides its answer and the forge as it leaves it, it gives
    the requests it sent, of any method. *)
Variable W : Type.
Variable service : PagureService.
Variable service_call_api : request -> W -> result json * W.
Variable service_call_api_raw :
  request -> W -> result (option RequestResponse) * W.
Variable user_get_username : W -> result string * list request * W.
Variable decode : list Byte.byte -> option string.
Variable PullRequest : Type.

Record state : Type := {
  forge : W;
  trace : list event;
  this : PagureProject;
}.

Definition M (A : Type) : Type := state -> result A * state.

Definition ret {A} (a : A) : M A := fun st => (inr a, st).

Definition raise {A} (e : exn) : M A := fun st => (inl e, st).

Definition bind {A B} (m : M A) (k : A -> M B) : M B :=
  fun st =>
    match m st with
    | (inl e, st') => (inl e, st')
    | (inr a, st') => k a st'
    end.

Definition lift {A} (r : result A) : M A := fun st => (r, st).

(** [try: m except: handler]; what [m] did before it failed stays done. *)
Definition try_except {A} (m : M A) (handler : exn -> M A) : M A :=
  fun st =>
    match m st with
    | (inl e, st') => handler e st'
    | (inr a, st') => (inr a, st')
    end.

Notation "'let*' x := m 'in' k" := (bind m (fun x => k))
  (at level 10, x pattern, m at level 100, k at level 200).

Definition get_this : M PagureProject := fun st => (inr (this st), st).

Definition set_this (p : PagureProject) : M unit :=
  fun st => (inr tt, {| forge := forge st; trace := trace st; this := p |}).

Definition emit (e : event) : M unit :=
  fun st =>
    (inr tt, {| forge := forge st; trace := trace st ++ [e]; this := this st |}).

Definition on_forge {A} (f : W -> result A * W) : M A :=
  fun st =>
    let '(r, w) := f (forge st) in
    (r, {| forge := w; trace := trace st; this := this st |}).

(** [o.m(...)]: run a method on another object; the caller gets the
    result and the object as the call left it. *)
Definition on {A} (o : PagureProject) (m : M A) : M (A * PagureProject) :=
  fun st =>
    let '(r, st') := m {| forge := forge st; trace := trace st; this := o |} in
    (match r with
     | inl e => inl e
     | inr a => inr (a, this st')
     end,
     {| forge := forge st'; trace := trace st'; this := this st |}).

(** [self.service.call_api(url=, method=, params=, data=)] *)
Definition call_api (r : request) : M json :=
  let* _ := emit (CallApi r) in on_forge (service_call_api r).

(** [self.service.call_api_raw(url=, method=, params=, data=)] *)
Definition call_api_raw (r : request) : M (option RequestResponse) :=
  let* _ := emit (CallApiRaw r) in on_forge (service_call_api_raw r).

(** [self.service.user.get_username()]: the look-up answers or fails, and
    whatever requests it sent on the way are kept with it in the trace. *)
Definition get_username : M string :=
  fun st =>
    let '(r, sent, w) := user_get_username (forge st) in
    (r, {| forge := w; trace := trace st ++ [GetUsername sent];
           this := this st |}).

(** [logger.info(msg)] *)
Definition logger_info (msg : string) : M unit := emit (LogInfo msg).

(** Modelled from the spec: [PagureService.get_api_url], whose file
    (ogr/services/pagure/service.py) is not among the sources.  The parts
    are joined with slashes behind the API endpoint's base, or behind the
    instance's base for the raw, non-API paths; a part that is [None] (a
    project without namespace) leaves no segment. *)
Definition get_api_url (parts : list (option string))
    (add_api_endpoint_part : bool) : string :=
  (if add_api_endpoint_part then api_url service else instance_url service)
  +:+ "/" +:+ String.concat "/" (omap id parts).

(** [PagureProject.__init__] *)
Definition PagureProject_init (repo : string) (namespace : option string)
    (username : option string) (is_fork : bool) : PagureProject :=
  {| repo := repo; namespace := namespace; _username := username;
     _is_fork := is_fork; read_only := service_read_only service |}.

Definition unset (o : option string) : bool :=
  match o with
  | Some s => String.eqb s ""
  | None => true
  end.

(** The property [_user]: fills [_username] in on first use. *)
Definition _user : M string :=
  let* self := get_this in
  if unset (_username self) then
    let* u := get_username in
    let* _ := set_this {| repo := repo self; namespace := namespace self;
                          _username := Some u; _is_fork := _is_fork self;
                          read_only := read_only self |} in
    ret u
  else
    ret (default "" (_username self)).

(** The positional arguments [_get_project_url] hands to
    [service.get_api_url]. *)
Definition project_url_parts (additional_parts : list string)
    (self : PagureProject) (args : list string) : list (option string) :=
  (Some <$> additional_parts) ++ [namespace self; Some (repo self)]
  ++ (Some <$> args).

Definition _get_project_url (args : list string) (add_fork_part : bool)
    (add_api_endpoint_part : bool) : M string :=
  let* self := get_this in
  let* additional_parts :=
    (if _is_fork self && add_fork_part then
       let* u := _user in ret ["fork"; u]
     else ret []) in
  let* self := get_this in
  ret (get_api_url (project_url_parts additional_parts self args)
         add_api_endpoint_part).

Definition _call_project_api (args : list string) (add_fork_part : bool)
    (add_api_endpoint_part : bool) (method : option string)
    (params data : option (gmap string json)) : M json :=
  let* request_url := _get_project_url args add_fork_part add_api_endpoint_part in
  call_api {| url := request_url; method := method; params := params;
              data := data |}.

Definition _call_project_api_raw (args : list string) (add_fork_part : bool)
    (add_api_endpoint_part : bool) (method : option string)
    (params data : option (gmap string json)) : M (option RequestResponse) :=
  let* request_url := _get_project_url args add_fork_part add_api_endpoint_part in
  call_api_raw {| url := request_url; method := method; params := params;
                  data := data |}.

Definition get_project_info : M json :=
  _call_project_api [] true true (Some "GET") None None.

Definition who_can_close_issue : M (gset hashable) :=
  let users : gset hashable := ∅ in
  let* project := get_project_info in
  let* access_users := lift (getitem project "access_users") in
  let* admin := lift (getitem access_users "admin") in
  let* users := lift (set_update users admin) in
  let* access_users := lift (getitem project "access_users") in
  let* commit := lift (getitem access_users "commit") in
  let* users := lift (set_update users commit) in
  let* access_users := lift (getitem project "access_users") in
  let* ticket := lift (getitem access_users "ticket") in
  let* users := lift (set_update users ticket) in
  let* access_users := lift (getitem project "access_users") in
  let* owner := lift (getitem access_users "owner") in
  let* users := lift (set_update users owner) in
  ret users.

Definition who_can_merge_pr : M (gset hashable) :=
  let users : gset hashable := ∅ in
  let* project := get_project_info in
  let* access_users := lift (getitem project "access_users") in
  let* admin := lift (getitem access_users "admin") in
  let* users := lift (set_update users admin) in
  let* access_users := lift (getitem project "access_users") in
  let* commit := lift (getitem access_users "commit") in
  let* users := lift (set_update users commit) in
  let* access_users := lift (getitem project "access_users") in
  let* owner := lift (getitem access_users "owner") in
  let* users := lift (set_update users owner) in
  ret users.

Definition can_merge_pr (username : string) : M bool :=
  let* users := who_can_merge_pr in
  ret (bool_decide (HStr username ∈ users)).

(** The classes of the package behind the decorated methods:
    [PagurePullRequest.create] and the read-only stand-ins of
    [GitProjectReadOnly], each called with [self] and the method's own
    arguments. *)
Variable PagurePullRequest_create :
  string -> string -> string -> string -> M PullRequest.
Variable GitProjectReadOnly_create_pr :
  string -> string -> string -> string -> option string -> M PullRequest.
Variable GitProjectReadOnly_fork_create : M PagureProject.
Variable GitProjectReadOnly_set_commit_status :
  string -> string -> string -> string -> string -> option Z ->
  option string -> M CommitFlag.

(** Modelled from the spec: the decorator [if_readonly] of
    ogr/read_only.py, which is not among the sources.  On a read-only
    client the call goes to the stand-in [return_function] and the
    method's own body does not run. *)
Definition if_readonly {A} (return_function : M A) (func : M A) : M A :=
  let* self := get_this in
  if read_only self then return_function else func.

Definition create_pr (title body target_branch source_branch : string)
    (fork_username : option string) : M PullRequest :=
  if_readonly
    (GitProjectReadOnly_create_pr title body target_branch source_branch
       fork_username)
    (PagurePullRequest_create title body target_branch source_branch).

Definition _construct_fork_project : M PagureProject :=
  let* self := get_this in
  let* u := _user in
  ret (PagureProject_init (repo self) (namespace self) (Some u) true).

Definition fork_create : M PagureProject :=
  if_readonly GitProjectReadOnly_fork_create
    (let request_url := get_api_url [Some "fork"] true in
     let* self := get_this in
     let* _ := call_api
       {| url := request_url; method := Some "POST"; params := None;
          data := Some {[ "repo" := JStr (repo self);
                          "namespace" := of_optional_str (namespace self);
                          "wait" := JBool true ]} |} in
     _construct_fork_project).

Definition is_fork : M bool :=
  let* self := get_this in ret (_is_fork self).

Definition exists_ : M bool :=
  let* response := _call_project_api_raw [] true true None None None in
  match response with
  | Some r => ret (ok r)
  | None => raise (AttributeError "ok")
  end.

Definition get_is_fork_from_api : M bool :=
  let* info := get_project_info in
  let* p := lift (getitem info "parent") in
  ret (truthy p).

Definition parent : M (option PagureProject) :=
  let* b := get_is_fork_from_api in
  if b then
    let* self := get_this in
    let* info := get_project_info in
    let* p := lift (getitem info "parent") in
    let* ns := lift (getitem p "namespace") in
    let* ns := lift (as_optional_str ns) in
    ret (Some (PagureProject_init (repo self) ns None false))
  else ret None.

(** [bool(f.exists() and f.parent.exists())]: the second operand is
    evaluated only when the first is true, and calling [exists] on the
    [None] that [parent] may return is an attribute error. *)
Definition is_forked : M bool :=
  let* f := _construct_fork_project in
  let* (e, f) := on f exists_ in
  if e then
    let* (p, f) := on f parent in
    match p with
    | Some g => let* (e', _) := on g exists_ in ret e'
    | None => raise (AttributeError "exists")
    end
  else ret false.

(** One element of the list comprehension of [get_forks]. *)
Definition fork_object (fork : json) : M PagureProject :=
  let* n := lift (getitem fork "name") in
  let* n := lift (as_str n) in
  let* ns := lift (getitem fork "namespace") in
  let* ns := lift (as_optional_str ns) in
  let* u := lift (getitem fork "user") in
  let* un := lift (getitem u "name") in
  let* un := lift (as_optional_str un) in
  ret (PagureProject_init n ns un true).

Fixpoint fork_objects (projects : list json) : M (list PagureProject) :=
  match projects with
  | [] => ret []
  | fork :: rest =>
      let* p := fork_object fork in
      let* ps := fork_objects rest in
      ret (p :: ps)
  end.

Definition get_forks : M (list PagureProject) :=
  let forks_url := get_api_url [Some "projects"] true in
  let* self := get_this in
  let* projects_response := call_api
    {| url := forks_url; method := None;
       params := Some {[ "fork" := JBool true; "pattern" := JStr (repo self) ]};
       data := None |} in
  let* projects := lift (getitem projects_response "projects") in
  let* projects := lift (iter_json projects) in
  fork_objects projects.

(** The loop of [get_fork] over the forks the forge lists. *)
Fixpoint find_own_fork (forks : list PagureProject)
    : M (option PagureProject) :=
  match forks with
  | [] => ret None
  | fork :: rest =>
      let* (fork_info, fork) := on fork get_project_info in
      let* u := _user in
      let* user := lift (getitem fork_info "user") in
      let* user_name := lift (getitem user "name") in
      let* found := lift (contains u user_name) in
      if found then ret (Some fork) else find_own_fork rest
  end.

Definition get_fork (create : bool) : M (option PagureProject) :=
  let* fork_of_fork := is_fork in
  if fork_of_fork then raise (OgrException "Cannot create fork from fork.")
  else
    let* forks := get_forks in
    let* found := find_own_fork forks in
    match found with
    | Some fork => ret (Some fork)
    | None =>
        let* forked := is_forked in
        if negb forked then
          if create then
            let* f := fork_create in ret (Some f)
          else
            let* self := get_this in
            let* _ := logger_info
              ("Fork of " +:+ repo self +:+
               " does not exist and we were asked not to create it.") in
            ret None
        else
          let* f := _construct_fork_project in ret (Some f)
    end.

(** [_commit_status_from_pagure_dict(status_dict, uid)] *)
Definition _commit_status_from_pagure_dict (status_dict : json) (uid : json)
    : result CommitFlag :=
  match getitem status_dict "commit_hash" with inl e => inl e | inr c =>
  match getitem status_dict "comment" with inl e => inl e | inr m =>
  match getitem status_dict "status" with inl e => inl e | inr s =>
  match getitem status_dict "username" with inl e => inl e | inr x =>
  match getitem status_dict "url" with inl e => inl e | inr u =>
  inr {| flag_commit := c; flag_comment := m; flag_state := s;
         flag_context := x; flag_url := u; flag_uid := uid |}
  end end end end end.

Definition get_file_content (path : string) (ref : string) : M string :=
  try_except
    (let* result := _call_project_api_raw ["raw"; ref; "f"; path] true false
                      None None None in
     match result with
     | None =>
         raise (FileNotFoundError
                  ("File '" +:+ path +:+ "' on " +:+ ref +:+ " not found")
                  None)
     | Some r =>
         if bool_decide (reason r = Some "NOT FOUND") then
           raise (FileNotFoundError
                    ("File '" +:+ path +:+ "' on " +:+ ref +:+ " not found")
                    None)
         else
           match decode (content r) with
           | Some text => ret text
           | None => raise UnicodeDecodeError
           end
     end)
    (fun ex =>
       match ex with
       | OurPagureRawRequest _ =>
           raise (FileNotFoundError
                    ("Problem with getting file '" +:+ path +:+ "' on " +:+ ref)
                    (Some ex))
       | _ => raise ex
       end).

(** The payload [set_commit_status] sends: the two optional entries are
    put in under Python's truth test of the argument. *)
Definition commit_status_data (state target_url description context : string)
    (percent : option Z) (uid : option string) : gmap string json :=
  let data : gmap string json :=
    {[ "username" := JStr context; "comment" := JStr description;
       "url" := JStr target_url; "status" := JStr state ]} in
  let data :=
    match percent with
    | Some n => if truthy (JNum n) then <["percent" := JNum n]> data else data
    | None => data
    end in
  match uid with
  | Some u => if truthy (JStr u) then <["uid" := JStr u]> data else data
  | None => data
  end.

Definition set_commit_status (commit state target_url description
    context : string) (percent : option Z) (uid : option string)
    : M CommitFlag :=
  if_readonly
    (GitProjectReadOnly_set_commit_status commit state target_url
       description context percent uid)
    (let data :=
       commit_status_data state target_url description context percent uid in
     let* response := _call_project_api ["c"; commit; "flag"] true true
                        (Some "POST") None (Some data) in
     let* flag := lift (getitem response "flag") in
     let* uid := lift (getitem response "uid") in
     lift (_commit_status_from_pagure_dict flag uid)).

Definition commit_comment (commit body : string) (filename : option string)
    (row : option Z) : M unit :=
  raise (OperationNotSupported "Commit comments are not supported on Pagure.").

Definition get_tags : M (list GitTag) :=
  let* response := _call_project_api ["git"; "tags"] true true None
                     (Some {[ "with_commits" := JBool true ]}) None in
  let* tags := lift (getitem response "tags") in
  let* pairs := lift (items tags) in
  ret ((fun '(n, c) => {| name := n; commit_sha := c |}) <$> pairs).

Definition get_tags_dict : M (gmap string GitTag) :=
  let* response := _call_project_api ["git"; "tags"] true true None
                     (Some {[ "with_commits" := JBool true ]}) None in
  let* tags := lift (getitem response "tags") in
  let* pairs := lift (items tags) in
  ret (foldl (fun tags_dict '(n, c) =>
                <[n := {| name := n; commit_sha := c |}]> tags_dict)
         ∅ pairs).

Definition get_sha_from_tag (tag_name : string) : M json :=
  let* tags_dict := get_tags_dict in
  match tags_dict !! tag_name with
  | None => raise (PagureAPIException ("Tag '" +:+ tag_name +:+ "' not found."))
  | Some tag => ret (commit_sha tag)
  end.

(** The users [users.update(project["access_users"][level])] adds. *)
Definition access_level (project : json) (level : string)
    : result (list hashable) :=
  match getitem project "access_users" with
  | inl e => inl e
  | inr access_users =>
      match getitem access_users level with
      | inl e => inl e
      | inr l => match iter_json l with
                 | inl e => inl e
                 | inr js => hash_all js
                 end
      end
  end.

(** The request for the tags, as [get_tags] and [get_tags_dict] make it. *)
Definition tags_response : M json :=
  _call_project_api ["git"; "tags"] true true None
    (Some {[ "with_commits" := JBool true ]}) None.

(** The events a computation adds to the trace from [st] hold no POST. *)
Definition posts_nothing {A} (m : M A) (st : state) : Prop :=
  exists evs : list event,
    trace (snd (m st)) = trace st ++ evs
    /\ forallb (fun e => negb (is_post e)) evs = true.

(** A state that differs in the handle only. *)
Definition with_this (p : PagureProject) (st : state) : state :=
  {| forge := forge st; trace := trace st; this := p |}.

(** ** The other methods of the class *)

Definition get_branches : M json :=
  let* return_value := _call_project_api ["git"; "branches"] true true
                         (Some "GET") None None in
  lift (getitem return_value "branches").

Definition get_description : M json :=
  let* info := get_project_info in
  lift (getitem info "description").

Definition get_owners : M json :=
  let* project := get_project_info in
  let* access_users := lift (getitem project "access_users") in
  lift (getitem access_users "owner").

Definition get_git_urls : M json :=
  let* return_value := _call_project_api ["git"; "urls"] true true None None
                         None in
  lift (getitem return_value "urls").

(** The list comprehension of [get_commit_statuses]: every flag goes
    through [_commit_status_from_pagure_dict] with the default [uid=None]. *)
Fixpoint commit_statuses (flags : list json) : result (list CommitFlag) :=
  match flags with
  | [] => inr []
  | flag :: rest =>
      match _commit_status_from_pagure_dict flag JNull with
      | inl e => inl e
      | inr f => match commit_statuses rest with
                 | inl e => inl e
                 | inr fs => inr (f :: fs)
                 end
      end
  end.

Definition get_commit_statuses (commit : string) : M (list CommitFlag) :=
  let* response := _call_project_api ["c"; commit; "flag"] true true None None
                     None in
  let* flags := lift (getitem response "flags") in
  let* flags := lift (iter_json flags) in
  lift (commit_statuses flags).

(** [ogr.services.pagure.release.PagureRelease], as [_release_from_git_tag]
    fills it in. *)
Record PagureRelease : Type := {
  tag_name : string;
  release_url : string;
  created_at : string;
  tarball_url : string;
  git_tag : GitTag;
  project : PagureProject;
}.

Definition _release_from_git_tag (self : PagureProject) (git_tag : GitTag)
    : PagureRelease :=
  {| tag_name := name git_tag; release_url := ""; created_at := "";
     tarball_url := ""; git_tag := git_tag; project := self |}.

Definition get_releases : M (list PagureRelease) :=
  let* git_tags := get_tags in
  let* self := get_this in
  ret (_release_from_git_tag self <$> git_tags).

(** The property [full_repo_name]. *)
Definition full_repo_name : M string :=
  let* fork_of := is_fork in
  let* fork := (if fork_of then
                  let* u := _user in ret ("fork/" +:+ u +:+ "/")
                else ret "") in
  let* self := get_this in
  let namespace_part :=
    match namespace self with
    | Some ns => if String.eqb ns "" then "" else ns +:+ "/"
    | None => ""
    end in
  ret (fork +:+ namespace_part +:+ repo self).

(** Two handles of the same project: all but the stored user name agree. *)
Definition same_project (p q : PagureProject) : Prop :=
  repo p = repo q /\ namespace p = namespace q
  /\ _is_fork p = _is_fork q /\ read_only p = read_only q.

(** A computation that, from any state and whatever its outcome, leaves the
    handle's project as it was and sends no POST of its own: a POST in what
    it adds to the trace can only be one that a look-up of the user name
    sent. *)
Definition tame {A} (m : M A) : Prop :=
  forall (st st' : state) (r : result A),
    m st = (r, st') ->
    same_project (this st) (this st')
    /\ exists evs : list event,
         trace st' = trace st ++ evs
         /\ forallb (fun e => negb (own_post e)) evs = true.

(** ** Properties *)

Lemma state_eta (st : state) :
  {| forge := forge st; trace := trace st; this := this st |} = st.
Proof. by destruct st. Qed.

Ltac run :=
  unfold bind, ret, raise, lift, get_this, set_this, emit, on_forge; simpl.

(** *** The lazily resolved user name *)

Lemma _user_cached (st : state) :
  unset (_username (this st)) = false ->
  _user st = (inr (default "" (_username (this st))), st).
Proof. intros H. unfold _user. run. by rewrite H. Qed.

Lemma _user_resolved (st : state) (u : string) (sent : list request)
    (w : W) :
  unset (_username (this st)) = true ->
  user_get_username (forge st) = (inr u, sent, w) ->
  _user st =
    (inr u,
     {| forge := w; trace := trace st ++ [GetUsername sent];
        this := {| repo := repo (this st); namespace := namespace (this st);
                   _username := Some u; _is_fork := _is_fork (this st);
                   read_only := read_only (this st) |} |}).
Proof.
  intros H Hu. unfold _user, get_username. run. rewrite H. run.
  by rewrite Hu.
Qed.

(** Resolving the user name changes no other attribute of the handle. *)
Lemma _user_frame (st st' : state) (r : result string) :
  _user st = (r, st') ->
  repo (this st') = repo (this st)
  /\ namespace (this st') = namespace (this st)
  /\ _is_fork (this st') = _is_fork (this st)
  /\ read_only (this st') = read_only (this st).
Proof.
  unfold _user, get_username. run.
  destruct (unset (_username (this st))); run.
  - destruct (user_get_username (forge st)) as [[[e|u] sent] w]; simpl;
      intros [= <- <-]; done.
  - intros [= <- <-]; done.
Qed.

(** *** URL construction *)

Lemma _get_project_url_plain (st : state) (args : list string)
    (add_fork_part add_api_endpoint_part : bool) :
  _is_fork (this st) && add_fork_part = false ->
  _get_project_url args add_fork_part add_api_endpoint_part st =
    (inr (get_api_url
            ([namespace (this st); Some (repo (this st))] ++ (Some <$> args))
            add_api_endpoint_part), st).
Proof. intros H. unfold _get_project_url. run. by rewrite H. Qed.

Lemma _get_project_url_fork (st st' : state) (u : string)
    (args : list string) (add_api_endpoint_part : bool) :
  _is_fork (this st) = true ->
  _user st = (inr u, st') ->
  _get_project_url args true add_api_endpoint_part st =
    (inr (get_api_url
            ([Some "fork"; Some u; namespace (this st); Some (repo (this st))]
             ++ (Some <$> args))
            add_api_endpoint_part), st').
Proof.
  intros H Hu. unfold _get_project_url. run. rewrite H. run. rewrite Hu.
  destruct (_user_frame _ _ _ Hu) as (Hr & Hn & _).
  unfold project_url_parts. simpl. by rewrite Hr, Hn.
Qed.

(** Splitting at the slashes. *)

Lemma segments_nonempty (s : string) : segments s <> [].
Proof.
  induction s as [|c s IH]; simpl; [done|].
  destruct (Ascii.eqb c "/"); [done|]. by destruct (segments s).
Qed.

Lemma segments_app_slash (a b : string) :
  segments (a +:+ "/" +:+ b) = segments a ++ segments b.
Proof.
  induction a as [|c a IH]; [done|].
  change (String c a +:+ "/" +:+ b) with (String c (a +:+ "/" +:+ b)).
  simpl. rewrite IH. destruct (Ascii.eqb c "/"); [done|].
  pose proof (segments_nonempty a). by destruct (segments a).
Qed.

Lemma segments_concat (l : list string) :
  l <> [] -> segments (String.concat "/" l) = flat_map segments l.
Proof.
  induction l as [|x l IH]; [done|]. intros _.
  destruct l as [|y l].
  - simpl. by rewrite app_nil_r.
  - change (String.concat "/" (x :: y :: l))
      with (x +:+ "/" +:+ String.concat "/" (y :: l)).
    rewrite segments_app_slash, IH by done. done.
Qed.

Lemma elem_of_flat_map_segments (x : string) (l : list string) :
  x ∈ flat_map segments l <-> exists part : string, part ∈ l /\ x ∈ segments part.
Proof.
  induction l as [|a l IH]; simpl.
  - split; [by intros ?%elem_of_nil | by intros (? & ?%elem_of_nil & _)].
  - rewrite elem_of_app, IH. split.
    + intros [H | (part & Hin & H)].
      * exists a. split; [by left | done].
      * exists part. split; [by right | done].
    + intros (part & [->|Hin]%elem_of_cons & H); [by left|].
      right. by exists part.
Qed.

Lemma omap_id_Some (l : list string) : omap id (Some <$> l) = l.
Proof. induction l as [|x l IH]; [done|]. simpl. f_equal. exact IH. Qed.

Lemma segments_get_api_url (ns : option string) (before : list string)
    (r : string) (args : list string) (add_api_endpoint_part : bool) :
  segments (get_api_url ((Some <$> before) ++ [ns; Some r] ++ (Some <$> args))
              add_api_endpoint_part) =
  segments (if add_api_endpoint_part then api_url service
            else instance_url service)
  ++ flat_map segments (before ++ option_list ns ++ r :: args).
Proof.
  unfold get_api_url. rewrite segments_app_slash. f_equal.
  assert (Hparts :
    omap id ((Some <$> before) ++ [ns; Some r] ++ (Some <$> args))
    = before ++ option_list ns ++ r :: args).
  { rewrite omap_app, omap_id_Some. f_equal.
    destruct ns; simpl; by rewrite omap_id_Some. }
  rewrite Hparts. apply segments_concat.
  destruct before; [destruct ns|]; done.
Qed.

(** C1 (as the code has it).  On a handle that is not a fork,
    [_get_project_url] puts no ["fork"], user prefix in, whatever
    [add_fork_part] says: the URL is the base followed by the namespace, the
    repo and the segments given, so that, split at the slashes, it has a
    [fork] segment only where the base, the namespace, the repo or a
    segment given has one, be it as a whole or between slashes of its own.
    On a fork, with [add_fork_part], the segments [fork] and the user name
    come right after the base and right before those of the namespace and
    the repo. *)
Theorem project_url_fork_part (st : state) (args : list string)
    (add_api_endpoint_part : bool) :
  let base :=
    if add_api_endpoint_part then api_url service else instance_url service in
  let path := option_list (namespace (this st)) ++ repo (this st) :: args in
  (_is_fork (this st) = false ->
   forall add_fork_part : bool,
   exists request_url : string,
     _get_project_url args add_fork_part add_api_endpoint_part st =
       (inr request_url, st)
     /\ request_url =
          get_api_url
            ([namespace (this st); Some (repo (this st))] ++ (Some <$> args))
            add_api_endpoint_part
     /\ segments request_url = segments base ++ flat_map segments path
     /\ ("fork" ∈ segments request_url
         <-> "fork" ∈ segments base
             \/ exists part : string, part ∈ path /\ "fork" ∈ segments part))
  /\ (_is_fork (this st) = true ->
      forall (u : string) (st' : state),
        _user st = (inr u, st') ->
        exists request_url : string,
          _get_project_url args true add_api_endpoint_part st =
            (inr request_url, st')
          /\ request_url =
               get_api_url
                 ([Some "fork"; Some u; namespace (this st);
                   Some (repo (this st))] ++ (Some <$> args))
                 add_api_endpoint_part
          /\ segments request_url =
               segments base ++ "fork" :: segments u ++ flat_map segments path).
Proof.
  intros base path. split.
  - intros Hf fp. eexists. split_and!.
    + apply _get_project_url_plain. by rewrite Hf.
    + done.
    + apply (segments_get_api_url _ []).
    + pose proof (segments_get_api_url (namespace (this st)) []
                    (repo (this st)) args add_api_endpoint_part) as Hs.
      change (segments
                (get_api_url
                   ([namespace (this st); Some (repo (this st))]
                    ++ (Some <$> args)) add_api_endpoint_part)
              = segments base ++ flat_map segments path) in Hs.
      rewrite Hs, elem_of_app. by rewrite elem_of_flat_map_segments.
  - intros Hf u st' Hu. eexists. split_and!.
    + by apply _get_project_url_fork.
    + done.
    + apply (segments_get_api_url _ ["fork"; u]).
Qed.

(** *** Operations the forge does not offer *)

(** C4.  [commit_comment] raises [OperationNotSupported] whatever it is
    given, and so never returns a value; it does not touch the forge. *)
Theorem commit_comment_not_supported (st : state) (commit body : string)
    (filename : option string) (row : option Z) :
  commit_comment commit body filename row st =
    (inl (OperationNotSupported "Commit comments are not supported on Pagure."),
     st)
  /\ forall (v : unit) (st' : state),
       commit_comment commit body filename row st <> (inr v, st').
Proof. split; [done | by intros v st' [=]]. Qed.

(** *** Forks *)

(** C7.  Asked on a handle that is a fork, [get_fork] raises
    [OgrException] with the state as it found it: nothing was asked of the
    forge, with [create] or without. *)
Theorem get_fork_of_fork (st : state) (create : bool) :
  _is_fork (this st) = true ->
  get_fork create st = (inl (OgrException "Cannot create fork from fork."), st).
Proof. intros H. unfold get_fork, is_fork. run. by rewrite H. Qed.

(** *** Who may close issues and merge pull requests *)

Lemma who_can_merge_pr_run (st s : state) (info : json) :
  get_project_info st = (inr info, s) ->
  who_can_merge_pr st =
    (match access_level info "admin" with inl e => inl e | inr a =>
     match access_level info "commit" with inl e => inl e | inr c =>
     match access_level info "owner" with inl e => inl e | inr o =>
     inr (list_to_set a ∪ list_to_set c ∪ list_to_set o)
     end end end, s).
Proof.
  intros H. unfold who_can_merge_pr, access_level, set_update. run.
  rewrite H.
  destruct (getitem info "access_users") as [e|au]; simpl; [done|].
  repeat (case_match; simplify_eq/=; try done).
  by rewrite (left_id_L ∅ (∪)).
Qed.

Lemma who_can_close_issue_run (st s : state) (info : json) :
  get_project_info st = (inr info, s) ->
  who_can_close_issue st =
    (match access_level info "admin" with inl e => inl e | inr a =>
     match access_level info "commit" with inl e => inl e | inr c =>
     match access_level info "ticket" with inl e => inl e | inr t =>
     match access_level info "owner" with inl e => inl e | inr o =>
     inr (list_to_set a ∪ list_to_set c ∪ list_to_set t ∪ list_to_set o)
     end end end end, s).
Proof.
  intros H. unfold who_can_close_issue, access_level, set_update. run.
  rewrite H.
  destruct (getitem info "access_users") as [e|au]; simpl; [done|].
  repeat (case_match; simplify_eq/=; try done).
  by rewrite (left_id_L ∅ (∪)).
Qed.

(** C2.  Let the forge answer the project-info request with [info], whose
    access levels admin, commit, ticket and owner list the users [a], [c],
    [t] and [o].  Then [who_can_merge_pr] returns the union of [a], [c]
    and [o], [who_can_close_issue] the union of all four, and the former
    is a subset of the latter. *)
Theorem who_can_merge_pr_subset (st s st' s' : state) (info : json)
    (a c t o : list hashable) :
  get_project_info st = (inr info, s) ->
  get_project_info st' = (inr info, s') ->
  access_level info "admin" = inr a ->
  access_level info "commit" = inr c ->
  access_level info "ticket" = inr t ->
  access_level info "owner" = inr o ->
  exists merge close : gset hashable,
    who_can_merge_pr st = (inr merge, s)
    /\ who_can_close_issue st' = (inr close, s')
    /\ merge = list_to_set a ∪ list_to_set c ∪ list_to_set o
    /\ close = list_to_set a ∪ list_to_set c ∪ list_to_set t ∪ list_to_set o
    /\ merge ⊆ close.
Proof.
  intros H H' Ha Hc Ht Ho.
  eexists _, _. split_and!; [| | done | done |].
  - rewrite (who_can_merge_pr_run _ _ _ H), Ha, Hc, Ho. done.
  - rewrite (who_can_close_issue_run _ _ _ H'), Ha, Hc, Ht, Ho. done.
  - set_solver.
Qed.

(** Whatever the answer looks like: if both calls return on it, the
    inclusion holds. *)
Lemma who_can_merge_pr_subset_any (st s st' s' : state) (info : json)
    (merge close : gset hashable) :
  get_project_info st = (inr info, s) ->
  get_project_info st' = (inr info, s') ->
  fst (who_can_merge_pr st) = inr merge ->
  fst (who_can_close_issue st') = inr close ->
  merge ⊆ close.
Proof.
  intros H H'.
  rewrite (who_can_merge_pr_run _ _ _ H), (who_can_close_issue_run _ _ _ H').
  simpl. repeat case_match; intros; simplify_eq. set_solver.
Qed.

(** *** Commit flags *)

Lemma commit_status_data_required (state target_url description
    context : string) (percent : option Z) (uid : option string) :
  let data :=
    commit_status_data state target_url description context percent uid in
  data !! "username" = Some (JStr context)
  /\ data !! "comment" = Some (JStr description)
  /\ data !! "url" = Some (JStr target_url)
  /\ data !! "status" = Some (JStr state).
Proof.
  unfold commit_status_data.
  destruct percent as [n|], uid as [u|]; simpl;
    repeat case_match; by simplify_map_eq.
Qed.

Lemma commit_status_data_percent (state target_url description
    context : string) (percent : option Z) (uid : option string) :
  commit_status_data state target_url description context percent uid
    !! "percent" =
  match percent with
  | Some n => if (n =? 0)%Z then None else Some (JNum n)
  | None => None
  end.
Proof.
  unfold commit_status_data.
  destruct percent as [n|], uid as [u|]; simpl;
    repeat case_match; by simplify_map_eq.
Qed.

Lemma commit_status_data_uid (state target_url description
    context : string) (percent : option Z) (uid : option string) :
  commit_status_data state target_url description context percent uid
    !! "uid" =
  match uid with
  | Some u => if String.eqb u "" then None else Some (JStr u)
  | None => None
  end.
Proof.
  unfold commit_status_data.
  destruct percent as [n|], uid as [u|]; simpl;
    repeat case_match; by simplify_map_eq.
Qed.

Lemma commit_status_data_bare (state target_url description
    context : string) :
  let data :=
    commit_status_data state target_url description context None None in
  dom data = {[ "username"; "comment"; "url"; "status" ]} /\ size data = 4.
Proof.
  unfold commit_status_data. simpl. split.
  - rewrite !dom_insert_L, dom_singleton_L. set_solver.
  - rewrite !map_size_insert_None, ?map_size_singleton; by simplify_map_eq.
Qed.

(** C3 (as the code has it).  On a client that is not read-only,
    [set_commit_status] makes one call, a POST whose payload holds
    username (the context), comment (the description), url (the target
    URL) and status (the state); it holds percent exactly when a percent
    other than 0 was given, and uid exactly when a uid other than the empty
    string was given, so that with neither given it has these four keys
    and no more.  The flag returned is read off the answer's flag object,
    its uid off the answer's own uid. *)
Theorem set_commit_status_payload (st st1 : state)
    (commit status target_url description context : string)
    (percent : option Z) (uid : option string) (request_url : string) :
  read_only (this st) = false ->
  _get_project_url ["c"; commit; "flag"] true true st = (inr request_url, st1) ->
  let payload :=
    commit_status_data status target_url description context percent uid in
  let post := {| url := request_url; method := Some "POST"; params := None;
                 data := Some payload |} in
  (payload !! "username" = Some (JStr context)
   /\ payload !! "comment" = Some (JStr description)
   /\ payload !! "url" = Some (JStr target_url)
   /\ payload !! "status" = Some (JStr status))
  /\ (forall v, payload !! "percent" = Some v
                <-> exists n, percent = Some n /\ n <> 0%Z /\ v = JNum n)
  /\ (forall v, payload !! "uid" = Some v
                <-> exists u, uid = Some u /\ u <> "" /\ v = JStr u)
  /\ (percent = None -> uid = None ->
      dom payload = {[ "username"; "comment"; "url"; "status" ]}
      /\ size payload = 4)
  /\ exists (r : result CommitFlag) (st2 : state),
       set_commit_status commit status target_url description context
         percent uid st = (r, st2)
       /\ trace st2 = trace st1 ++ [CallApi post]
       /\ forall (response flag top_uid c m s x u : json) (w : W),
            service_call_api post (forge st1) = (inr response, w) ->
            getitem response "flag" = inr flag ->
            getitem response "uid" = inr top_uid ->
            getitem flag "commit_hash" = inr c ->
            getitem flag "comment" = inr m ->
            getitem flag "status" = inr s ->
            getitem flag "username" = inr x ->
            getitem flag "url" = inr u ->
            r = inr {| flag_commit := c; flag_comment := m; flag_state := s;
                       flag_context := x; flag_url := u;
                       flag_uid := top_uid |}.
Proof.
  intros Hro Hurl payload post. split_and!.
  - apply commit_status_data_required.
  - apply commit_status_data_required.
  - apply commit_status_data_required.
  - apply commit_status_data_required.
  - intros v. subst payload. rewrite commit_status_data_percent.
    destruct percent as [n|]; [destruct (Z.eqb_spec n 0)|].
    + split; [done | intros (? & [= <-] & ? & _); done].
    + split; [intros [= <-]; eexists; split_and!; done | by intros (? & [= <-] & _ & ->)].
    + split; [done | by intros (? & ? & _)].
  - intros v. subst payload. rewrite commit_status_data_uid.
    destruct uid as [u|]; [destruct (String.eqb_spec u "")|].
    + split; [done | intros (? & [= <-] & ? & _); done].
    + split; [intros [= <-]; eexists; split_and!; done | by intros (? & [= <-] & _ & ->)].
    + split; [done | by intros (? & ? & _)].
  - intros -> ->. apply commit_status_data_bare.
  - unfold set_commit_status. fold payload. clearbody payload.
    unfold if_readonly, _call_project_api, call_api.
    run. rewrite Hro, Hurl. simpl. fold post.
    destruct (service_call_api post (forge st1)) as [[e|response] w] eqn:Hc;
      simpl.
    + eexists _, _. split_and!; [done | done |]. by intros.
    + destruct (getitem response "flag") as [e|flag] eqn:Hf;
        [|destruct (getitem response "uid") as [e|top_uid] eqn:Hu]; simpl;
        (eexists _, _; split_and!; [done | done |]);
        intros response' flag' top_uid' c m s x u w' Hc' Hf' Hu' Hc'' Hm Hs
          Hx Hu'';
        injection Hc' as <- <-; [congruence..|].
      unfold _commit_status_from_pagure_dict.
      rewrite Hf in Hf'. rewrite Hu in Hu'. simplify_eq.
      by rewrite Hc'', Hm, Hs, Hx, Hu''.
Qed.

(** *** Tags *)

Lemma tags_dict_fold (pairs : list (string * json))
    (acc : gmap string GitTag) (n : string) :
  NoDup pairs.*1 ->
  foldl (fun tags_dict '(n, c) =>
           <[n := {| name := n; commit_sha := c |}]> tags_dict) acc pairs
    !! n =
  match list_to_map (M := gmap string json) pairs !! n with
  | Some c => Some {| name := n; commit_sha := c |}
  | None => acc !! n
  end.
Proof.
  revert acc. induction pairs as [|[k c] pairs IH]; intros acc Hnd; [done|].
  apply NoDup_cons in Hnd as [Hk Hnd]. simpl. rewrite IH by done.
  destruct (decide (k = n)) as [->|Hne].
  - rewrite !lookup_insert_eq.
    by rewrite (not_elem_of_list_to_map_1 pairs n Hk).
  - by rewrite !lookup_insert_ne by done.
Qed.

Lemma tags_dict_lookup (m : gmap string json) (n : string) :
  foldl (fun tags_dict '(n, c) =>
           <[n := {| name := n; commit_sha := c |}]> tags_dict)
    (∅ : gmap string GitTag) (map_to_list m) !! n =
  (fun c => {| name := n; commit_sha := c |}) <$> m !! n.
Proof.
  rewrite tags_dict_fold by apply NoDup_fst_map_to_list.
  rewrite list_to_map_to_list. by destruct (m !! n).
Qed.

Lemma get_tags_run (st s : state) (response : json)
    (m : gmap string json) :
  tags_response st = (inr response, s) ->
  getitem response "tags" = inr (JDict m) ->
  get_tags st =
    (inr ((fun '(n, c) => {| name := n; commit_sha := c |})
            <$> map_to_list m), s).
Proof.
  intros H Ht. unfold get_tags. fold tags_response. run.
  by rewrite H, Ht.
Qed.

Lemma get_tags_dict_run (st s : state) (response : json)
    (m : gmap string json) :
  tags_response st = (inr response, s) ->
  getitem response "tags" = inr (JDict m) ->
  get_tags_dict st =
    (inr (foldl (fun tags_dict '(n, c) =>
                   <[n := {| name := n; commit_sha := c |}]> tags_dict)
            ∅ (map_to_list m)), s).
Proof.
  intros H Ht. unfold get_tags_dict. fold tags_response. run.
  by rewrite H, Ht.
Qed.

(** C9.  Let the forge answer the tags request with a response whose
    tags are the mapping [m].  Then [get_tags] returns a list and
    [get_tags_dict] a dictionary such that every entry of the dictionary
    bears the name it is filed under and the commit of the one entry of
    the list with that name, and the names of both are those of [m]. *)
Theorem tags_views_consistent (st s st' s' : state) (response : json)
    (m : gmap string json) :
  tags_response st = (inr response, s) ->
  tags_response st' = (inr response, s') ->
  getitem response "tags" = inr (JDict m) ->
  exists (l : list GitTag) (d : gmap string GitTag),
    get_tags st = (inr l, s)
    /\ get_tags_dict st' = (inr d, s')
    /\ (forall (n : string) (t : GitTag),
          d !! n = Some t ->
          name t = n
          /\ exists e : GitTag,
               e ∈ l /\ name e = n /\ commit_sha e = commit_sha t
               /\ forall e' : GitTag, e' ∈ l -> name e' = n -> e' = e)
    /\ dom d = dom m
    /\ (forall n : string, n ∈ name <$> l <-> n ∈ dom m)
    /\ NoDup (name <$> l).
Proof.
  intros H H' Ht. eexists _, _.
  split; [by eapply get_tags_run|]. split; [by eapply get_tags_dict_run|].
  assert (Hnames :
    name <$> ((fun '(n, c) => {| name := n; commit_sha := c |})
                <$> map_to_list m) = (map_to_list m).*1).
  { rewrite <- list_fmap_compose. apply list_fmap_ext. by intros ? []. }
  split_and!.
  - intros n t. rewrite tags_dict_lookup.
    destruct (m !! n) as [c|] eqn:Hn; [|done]. intros [= <-]. split; [done|].
    exists {| name := n; commit_sha := c |}. split_and!; [|done|done|].
    + apply list_elem_of_fmap. exists (n, c). split; [done|].
      by apply elem_of_map_to_list.
    + intros e' (p & -> & Hp)%list_elem_of_fmap. destruct p as [k c'].
      simpl. intros ->. apply elem_of_map_to_list in Hp. congruence.
  - apply set_eq. intros n. rewrite !elem_of_dom, tags_dict_lookup.
    by rewrite fmap_is_Some.
  - intros n. rewrite Hnames, elem_of_dom.
    rewrite list_elem_of_fmap. split.
    + intros ([k c] & -> & Hp). apply elem_of_map_to_list in Hp. by eexists.
    + intros [c Hc]. exists (n, c). split; [done|].
      by apply elem_of_map_to_list.
  - rewrite Hnames. apply NoDup_fst_map_to_list.
Qed.

(** C5.  Once [get_tags_dict] has returned the dictionary [d],
    [get_sha_from_tag] raises [PagureAPIException] for a name that [d]
    lacks, returning nothing, and returns the commit filed under the name
    otherwise. *)
Theorem get_sha_from_tag_lookup (st st' : state) (d : gmap string GitTag)
    (tag_name : string) :
  get_tags_dict st = (inr d, st') ->
  (d !! tag_name = None ->
   get_sha_from_tag tag_name st =
     (inl (PagureAPIException ("Tag '" +:+ tag_name +:+ "' not found.")), st')
   /\ forall (v : json) (s : state),
        get_sha_from_tag tag_name st <> (inr v, s))
  /\ (forall t : GitTag,
        d !! tag_name = Some t ->
        get_sha_from_tag tag_name st = (inr (commit_sha t), st')).
Proof.
  intros H. unfold get_sha_from_tag. run. rewrite H. split.
  - intros ->. split; [done | by intros v s [=]].
  - by intros t ->.
Qed.

(** *** File contents *)

(** C6.  With the URL of the raw path built, [get_file_content] makes
    the one raw request and then: raises [FileNotFoundError] when no
    response comes back or its reason is NOT FOUND; turns the transport
    error [OurPagureRawRequest] into a [FileNotFoundError] that carries it
    as its cause; and returns the decoded content of any other
    response. *)
Theorem get_file_content_outcomes (st st1 : state) (path ref : string)
    (request_url : string) (answer : result (option RequestResponse))
    (w : W) :
  _get_project_url ["raw"; ref; "f"; path] true false st
    = (inr request_url, st1) ->
  let raw := {| url := request_url; method := None; params := None;
                data := None |} in
  service_call_api_raw raw (forge st1) = (answer, w) ->
  let st2 := {| forge := w; trace := trace st1 ++ [CallApiRaw raw];
                this := this st1 |} in
  let not_found :=
    FileNotFoundError ("File '" +:+ path +:+ "' on " +:+ ref +:+ " not found")
      None in
  (answer = inr None -> get_file_content path ref st = (inl not_found, st2))
  /\ (forall r : RequestResponse,
        answer = inr (Some r) -> reason r = Some "NOT FOUND" ->
        get_file_content path ref st = (inl not_found, st2))
  /\ (forall msg : string,
        answer = inl (OurPagureRawRequest msg) ->
        get_file_content path ref st =
          (inl (FileNotFoundError
                  ("Problem with getting file '" +:+ path +:+ "' on " +:+ ref)
                  (Some (OurPagureRawRequest msg))), st2))
  /\ (forall (r : RequestResponse) (text : string),
        answer = inr (Some r) -> reason r <> Some "NOT FOUND" ->
        decode (content r) = Some text ->
        get_file_content path ref st = (inr text, st2)).
Proof.
  intros Hurl raw Hraw st2 not_found.
  unfold get_file_content, try_except, _call_project_api_raw, call_api_raw.
  run. rewrite Hurl. simpl. fold raw. rewrite Hraw. split_and!.
  - by intros ->.
  - intros r -> Hr. simpl. by rewrite bool_decide_eq_true_2.
  - by intros msg ->.
  - intros r text -> Hr Hd. simpl. rewrite bool_decide_eq_false_2 by done.
    by rewrite Hd.
Qed.

(** *** Read-only clients *)

(** C8.  On a read-only client [create_pr], [fork_create] and
    [set_commit_status] are their read-only stand-ins: same result, same
    state, hence nothing sent that the stand-in did not send; where the
    stand-in posts nothing, neither does the method, and the POST that
    creates the fork is not made. *)
Theorem read_only_redirects (st : state)
    (title body target_branch source_branch : string)
    (fork_username : option string)
    (commit status target_url description context : string)
    (percent : option Z) (uid : option string) :
  read_only (this st) = true ->
  (create_pr title body target_branch source_branch fork_username st =
     GitProjectReadOnly_create_pr title body target_branch source_branch
       fork_username st
   /\ fork_create st = GitProjectReadOnly_fork_create st
   /\ set_commit_status commit status target_url description context
        percent uid st =
      GitProjectReadOnly_set_commit_status commit status target_url
        description context percent uid st)
  /\ (posts_nothing
        (GitProjectReadOnly_create_pr title body target_branch source_branch
           fork_username) st ->
      posts_nothing
        (create_pr title body target_branch source_branch fork_username) st)
  /\ (posts_nothing GitProjectReadOnly_fork_create st ->
      posts_nothing fork_create st)
  /\ (posts_nothing
        (GitProjectReadOnly_set_commit_status commit status target_url
           description context percent uid) st ->
      posts_nothing
        (set_commit_status commit status target_url description context
           percent uid) st).
Proof.
  intros Hro.
  assert (Hif : forall A (f g : M A), if_readonly f g st = f st).
  { intros A f g. unfold if_readonly. run. by rewrite Hro. }
  unfold create_pr, fork_create, set_commit_status, posts_nothing.
  rewrite !Hif. done.
Qed.

(** *** Is the project forked? *)

Lemma on_run {A} (o o' : PagureProject) (m : M A) (a : A) (st st' : state) :
  on o m st = (inr (a, o'), st') ->
  m (with_this o st) = (inr a, with_this o' st') /\ this st' = this st.
Proof.
  unfold on, with_this.
  destruct (m _) as [[e|a'] s]; simpl; [done|].
  intros [= <- <- <-]. by destruct s.
Qed.

Lemma on_returns {A} (o : PagureProject) (m : M A) (a : A)
    (st s : state) :
  m (with_this o st) = (inr a, s) ->
  on o m st = (inr (a, this s), with_this (this st) s).
Proof. intros H. unfold on, with_this in *. by rewrite H. Qed.

Lemma parent_absent (st s : state) (info p : json) :
  get_project_info st = (inr info, s) ->
  getitem info "parent" = inr p ->
  truthy p = false ->
  parent st = (inr None, s).
Proof.
  intros H Hp Hn. unfold parent, get_is_fork_from_api. run.
  rewrite H, Hp. simpl. by rewrite Hn.
Qed.

(** C10.  When the user's fork answers the [exists] probe and its
    project info names no parent, [parent] is [None] and [is_forked]
    fails with [AttributeError] where one would expect [False]; so
    [is_forked] returns a boolean only when the info of a fork that is
    there names a parent. *)
Theorem is_forked_without_parent (st st1 st2 st3 : state)
    (f f1 f2 : PagureProject) (info p : json) :
  _construct_fork_project st = (inr f, st1) ->
  on f exists_ st1 = (inr (true, f1), st2) ->
  on f1 get_project_info st2 = (inr (info, f2), st3) ->
  getitem info "parent" = inr p ->
  truthy p = false ->
  is_forked st = (inl (AttributeError "exists"), st3)
  /\ forall (b : bool) (s : state), is_forked st <> (inr b, s).
Proof.
  intros Hf He Hi Hp Hn.
  assert (H : is_forked st = (inl (AttributeError "exists"), st3)).
  { unfold is_forked, bind. rewrite Hf, He.
    apply on_run in Hi as [Hi Hthis].
    rewrite (on_returns _ _ _ _ _ (parent_absent _ _ _ _ Hi Hp Hn)).
    unfold raise, with_this. simpl. rewrite <- Hthis. by destruct st3. }
  split; [done|]. intros b s. by rewrite H.
Qed.

Lemma is_forked_not_there (st st1 st2 : state) (f f1 : PagureProject) :
  _construct_fork_project st = (inr f, st1) ->
  on f exists_ st1 = (inr (false, f1), st2) ->
  is_forked st = (inr false, st2).
Proof.
  intros Hf He. unfold is_forked, bind. by rewrite Hf, He.
Qed.

(** ** Further properties *)

(** *** The user name, once resolved *)

(** X1.  Once [_user] has given a name that is not empty, asking again
    gives the same name and leaves the state alone: the forge is asked at
    most once. *)
Theorem _user_asks_once (st st' : state) (u : string) :
  _user st = (inr u, st') ->
  u <> "" ->
  _user st' = (inr u, st').
Proof.
  intros H Hu.
  assert (Hset : unset (_username (this st')) = false
                 /\ default "" (_username (this st')) = u).
  { revert H. unfold _user, get_username. run.
    destruct (unset (_username (this st))) eqn:Hun; run.
    - destruct (user_get_username (forge st)) as [[[e|u'] sent] w]; simpl;
        [done|].
      intros [= -> <-]. simpl. split; [|done].
      by apply String.eqb_neq.
    - intros [= <- <-]. done. }
  destruct Hset as [Hun <-]. by apply _user_cached.
Qed.

(** An empty name is not kept: the next call asks the forge again. *)
Lemma _user_empty_asks_again (st st' : state) :
  _user st = (inr "", st') ->
  unset (_username (this st')) = true.
Proof.
  unfold _user, get_username. run.
  destruct (unset (_username (this st))) eqn:Hun; run.
  - destruct (user_get_username (forge st)) as [[[e|u'] sent] w]; simpl;
      [done|].
    by intros [= -> <-].
  - intros [= Hd <-]. destruct (_username (this st)) as [n|]; [|done].
    simpl in *. by subst.
Qed.

(** *** Access levels *)

Lemma can_merge_pr_run (st s : state) (info : json) (a c o : list hashable)
    (username : string) :
  get_project_info st = (inr info, s) ->
  access_level info "admin" = inr a ->
  access_level info "commit" = inr c ->
  access_level info "owner" = inr o ->
  can_merge_pr username st =
    (inr (bool_decide
            (HStr username ∈
               (list_to_set a ∪ list_to_set c ∪ list_to_set o
                : gset hashable))), s).
Proof.
  intros H Ha Hc Ho. unfold can_merge_pr, bind.
  rewrite (who_can_merge_pr_run _ _ _ H), Ha, Hc, Ho. done.
Qed.

(** X2.  A user listed at the ticket level only may close issues but not
    merge: [can_merge_pr] answers [False] for them, while
    [who_can_close_issue] has them. *)
Theorem ticket_only_cannot_merge (st s st' s' : state) (info : json)
    (a c t o : list hashable) (username : string) :
  get_project_info st = (inr info, s) ->
  get_project_info st' = (inr info, s') ->
  access_level info "admin" = inr a ->
  access_level info "commit" = inr c ->
  access_level info "ticket" = inr t ->
  access_level info "owner" = inr o ->
  HStr username ∈ t ->
  HStr username ∉ a -> HStr username ∉ c -> HStr username ∉ o ->
  can_merge_pr username st = (inr false, s)
  /\ exists close : gset hashable,
       who_can_close_issue st' = (inr close, s') /\ HStr username ∈ close.
Proof using Type.
  clear PagurePullRequest_create GitProjectReadOnly_create_pr
    GitProjectReadOnly_fork_create GitProjectReadOnly_set_commit_status.
  intros H H' Ha Hc Ht Ho Hin Hna Hnc Hno. split.
  - rewrite (can_merge_pr_run _ _ _ _ _ _ _ H Ha Hc Ho).
    rewrite bool_decide_eq_false_2; [done|]. set_solver.
  - eexists. rewrite (who_can_close_issue_run _ _ _ H'), Ha, Hc, Ht, Ho.
    split; [done|]. set_solver.
Qed.

Lemma hash_all_elem (l : list json) (hs : list hashable) (j : json)
    (h : hashable) :
  hash_all l = inr hs -> j ∈ l -> hash j = inr h -> h ∈ hs.
Proof.
  revert hs. induction l as [|x l IH]; intros hs Hl Hj Hh.
  - by apply elem_of_nil in Hj.
  - simpl in Hl. destruct (hash x) as [e|hx] eqn:Hx; [done|].
    destruct (hash_all l) as [e|hl]; [done|]. injection Hl as <-.
    apply elem_of_cons in Hj as [->|Hj].
    + rewrite Hx in Hh. injection Hh as ->. apply elem_of_cons. by left.
    + apply elem_of_cons. right. by apply IH.
Qed.

(** X3.  Whoever [get_owners] lists may merge: when the owner level is a
    list, [get_owners] returns it, and [can_merge_pr] answers [True] for
    every name on it. *)
Theorem owners_can_merge (st s st' s' : state) (info : json)
    (a c o : list hashable) (owners : list json) (username : string) :
  get_project_info st = (inr info, s) ->
  get_project_info st' = (inr info, s') ->
  access_level info "admin" = inr a ->
  access_level info "commit" = inr c ->
  access_level info "owner" = inr o ->
  get_owners st = (inr (JList owners), s) ->
  JStr username ∈ owners ->
  can_merge_pr username st' = (inr true, s').
Proof using Type.
  clear PagurePullRequest_create GitProjectReadOnly_create_pr
    GitProjectReadOnly_fork_create GitProjectReadOnly_set_commit_status.
  intros H H' Ha Hc Ho Hown Hin.
  rewrite (can_merge_pr_run _ _ _ _ _ _ _ H' Ha Hc Ho).
  rewrite bool_decide_eq_true_2; [done|].
  assert (HStr username ∈ o); [|set_solver].
  revert Hown Ho. unfold get_owners, access_level. run. rewrite H.
  destruct (getitem info "access_users") as [e|au]; simpl; [done|].
  destruct (getitem au "owner") as [e|ow]; simpl; [done|].
  intros [= ->]. simpl. intros Hh.
  by eapply hash_all_elem.
Qed.


(** *** Probing a project *)

(** X4.  [exists] makes one raw request for the project's URL and returns
    the [ok] of the response; it catches nothing, so an error of the raw
    request comes out of [exists] as it is, and a missing response is an
    [AttributeError], where one might expect [False]. *)
Theorem exists_outcomes (st st1 : state) (request_url : string)
    (answer : result (option RequestResponse)) (w : W) :
  _get_project_url [] true true st = (inr request_url, st1) ->
  let raw := {| url := request_url; method := None; params := None;
                data := None |} in
  service_call_api_raw raw (forge st1) = (answer, w) ->
  let st2 := {| forge := w; trace := trace st1 ++ [CallApiRaw raw];
                this := this st1 |} in
  exists_ st =
    (match answer with
     | inl e => inl e
     | inr None => inl (AttributeError "ok")
     | inr (Some r) => inr (ok r)
     end, st2).
Proof.
  intros Hurl raw Hraw st2.
  unfold exists_, _call_project_api_raw, call_api_raw. run.
  rewrite Hurl. simpl. fold raw. rewrite Hraw.
  by destruct answer as [e|[r|]].
Qed.

(** *** Commit flags read back *)

(** X5.  A flag object becomes a [CommitFlag] exactly when it has the five
    keys commit_hash, comment, status, username and url; the flag then
    carries the uid it was given and the five values, with status as its
    state and username as its context. *)
Theorem commit_status_needs_five_keys (d : gmap string json) (uid : json) :
  (exists f : CommitFlag, _commit_status_from_pagure_dict (JDict d) uid = inr f)
  <-> {[ "commit_hash"; "comment"; "status"; "username"; "url" ]} ⊆ dom d.
Proof.
  unfold _commit_status_from_pagure_dict, getitem. split.
  - intros [f Hf]. intros k Hk. apply elem_of_dom.
    repeat (let E := fresh in
            destruct (d !! _) eqn:E in Hf; [|done]).
    set_unfold. destruct_or!; subst; eauto.
  - intros Hsub.
    assert (Hk : forall k : string,
              k ∈ ({[ "commit_hash"; "comment"; "status"; "username"; "url" ]}
                   : gset string) -> is_Some (d !! k)).
    { intros k Hin. apply elem_of_dom. by apply Hsub. }
    destruct (Hk "commit_hash") as [? ->]; [set_solver|].
    destruct (Hk "comment") as [? ->]; [set_solver|].
    destruct (Hk "status") as [? ->]; [set_solver|].
    destruct (Hk "username") as [? ->]; [set_solver|].
    destruct (Hk "url") as [? ->]; [set_solver|].
    by eexists.
Qed.

Lemma commit_status_fields (flag uid : json) (f : CommitFlag) :
  _commit_status_from_pagure_dict flag uid = inr f ->
  flag_uid f = uid
  /\ getitem flag "commit_hash" = inr (flag_commit f)
  /\ getitem flag "comment" = inr (flag_comment f)
  /\ getitem flag "status" = inr (flag_state f)
  /\ getitem flag "username" = inr (flag_context f)
  /\ getitem flag "url" = inr (flag_url f).
Proof.
  unfold _commit_status_from_pagure_dict.
  destruct (getitem flag "commit_hash"); [done|].
  destruct (getitem flag "comment"); [done|].
  destruct (getitem flag "status"); [done|].
  destruct (getitem flag "username"); [done|].
  destruct (getitem flag "url"); [done|].
  by intros [= <-].
Qed.

Lemma commit_statuses_all (flags : list json) (fs : list CommitFlag) :
  commit_statuses flags = inr fs ->
  Forall2 (fun flag f => _commit_status_from_pagure_dict flag JNull = inr f)
    flags fs.
Proof.
  revert fs. induction flags as [|flag flags IH]; intros fs; simpl.
  - by intros [= <-].
  - destruct (_commit_status_from_pagure_dict flag JNull) as [e|f] eqn:Hf;
      [done|].
    destruct (commit_statuses flags) as [e|fs']; [done|].
    intros [= <-]. constructor; [done | by apply IH].
Qed.


(** *** Tags, releases and their commits *)

(** X7.  From the answer to the commit: with the tags mapping [m] in the
    forge's answer, [get_sha_from_tag] returns what [m] holds under the
    name, and raises [PagureAPIException] for a name [m] lacks. *)
Theorem get_sha_from_tag_of_response (st s : state) (response : json)
    (m : gmap string json) (tag_name : string) :
  tags_response st = (inr response, s) ->
  getitem response "tags" = inr (JDict m) ->
  get_sha_from_tag tag_name st =
    (match m !! tag_name with
     | Some c => inr c
     | None =>
         inl (PagureAPIException ("Tag '" +:+ tag_name +:+ "' not found."))
     end, s).
Proof.
  intros H Ht. unfold get_sha_from_tag, bind.
  rewrite (get_tags_dict_run _ _ _ _ H Ht), tags_dict_lookup.
  by destruct (m !! tag_name).
Qed.

(** X8.  [get_releases] gives one release per tag of the mapping [m]:
    named after its tag, with empty url, created_at and tarball_url, bound
    to the handle, and holding the commit [m] has for the name. *)
Theorem get_releases_of_tags (st s : state) (response : json)
    (m : gmap string json) :
  tags_response st = (inr response, s) ->
  getitem response "tags" = inr (JDict m) ->
  exists rs : list PagureRelease,
    get_releases st = (inr rs, s)
    /\ length rs = size m
    /\ Forall (fun r =>
                release_url r = "" /\ created_at r = "" /\ tarball_url r = ""
                /\ tag_name r = name (git_tag r)
                /\ m !! tag_name r = Some (commit_sha (git_tag r))
                /\ project r = this s) rs
    /\ (forall n : string, n ∈ tag_name <$> rs <-> n ∈ dom m)
    /\ NoDup (tag_name <$> rs).
Proof.
  intros H Ht. eexists. split.
  { unfold get_releases, bind. rewrite (get_tags_run _ _ _ _ H Ht).
    unfold get_this, ret. reflexivity. }
  assert (Hnames :
    tag_name <$> (_release_from_git_tag (this s) <$>
       ((fun '(n, c) => {| name := n; commit_sha := c |}) <$> map_to_list m))
    = (map_to_list m).*1).
  { rewrite <- !list_fmap_compose. apply list_fmap_ext. by intros ? []. }
  split_and!.
  - by rewrite !length_fmap, length_map_to_list.
  - apply Forall_forall. intros r Hr.
    apply list_elem_of_fmap in Hr as (t & -> & Ht').
    apply list_elem_of_fmap in Ht' as ([n c] & -> & Hnc).
    apply elem_of_map_to_list in Hnc. simpl. done.
  - intros n. rewrite Hnames, elem_of_dom, list_elem_of_fmap. split.
    + intros ([k c] & -> & Hp). apply elem_of_map_to_list in Hp. by eexists.
    + intros [c Hc]. exists (n, c). split; [done|].
      by apply elem_of_map_to_list.
  - rewrite Hnames. apply NoDup_fst_map_to_list.
Qed.

(** X9.  Tags answered as a list of names, not as a mapping from names to
    commits, are of no use to any of the four readers: each fails with
    [AttributeError]. *)
Theorem tags_as_list_fail (st s : state) (response : json) (l : list json)
    (tag_name : string) :
  tags_response st = (inr response, s) ->
  getitem response "tags" = inr (JList l) ->
  get_tags st = (inl (AttributeError "items"), s)
  /\ get_tags_dict st = (inl (AttributeError "items"), s)
  /\ get_sha_from_tag tag_name st = (inl (AttributeError "items"), s)
  /\ get_releases st = (inl (AttributeError "items"), s).
Proof.
  intros H Ht.
  assert (H1 : get_tags st = (inl (AttributeError "items"), s)).
  { unfold get_tags. fold tags_response. run. by rewrite H, Ht. }
  assert (H2 : get_tags_dict st = (inl (AttributeError "items"), s)).
  { unfold get_tags_dict. fold tags_response. run. by rewrite H, Ht. }
  split_and!; [done | done | |].
  - unfold get_sha_from_tag, bind. by rewrite H2.
  - unfold get_releases, bind. by rewrite H1.
Qed.


(** *** What the read paths leave alone *)

Lemma same_project_refl (p : PagureProject) : same_project p p.
Proof. by repeat split. Qed.

Lemma same_project_trans (p q r : PagureProject) :
  same_project p q -> same_project q r -> same_project p r.
Proof.
  intros (? & ? & ? & ?) (? & ? & ? & ?). repeat split; congruence.
Qed.

Lemma tame_pure {A} (m : M A) :
  (forall st : state, snd (m st) = st) -> tame m.
Proof.
  intros H st st' r Hm. specialize (H st). rewrite Hm in H. simpl in H.
  subst st'. split; [apply same_project_refl|].
  exists []. by rewrite app_nil_r.
Qed.

Lemma tame_ret {A} (a : A) : tame (ret a).
Proof. by apply tame_pure. Qed.

Lemma tame_raise {A} (e : exn) : tame (raise (A := A) e).
Proof. by apply tame_pure. Qed.

Lemma tame_lift {A} (r : result A) : tame (lift r).
Proof. by apply tame_pure. Qed.

Lemma tame_get_this : tame get_this.
Proof. by apply tame_pure. Qed.

Lemma tame_bind {A B} (m : M A) (k : A -> M B) :
  tame m -> (forall a : A, tame (k a)) -> tame (bind m k).
Proof.
  intros Hm Hk st st' r. unfold bind.
  destruct (m st) as [[e|a] s] eqn:E.
  - intros [= <- <-]. by eapply Hm.
  - intros Hka. destruct (Hm _ _ _ E) as (Hs & evs & Ht & Hp).
    destruct (Hk a _ _ _ Hka) as (Hs' & evs' & Ht' & Hp').
    split; [by eapply same_project_trans|].
    exists (evs ++ evs'). rewrite Ht', Ht, app_assoc. split; [done|].
    by rewrite forallb_app, Hp, Hp'.
Qed.

Lemma tame_emit (e : event) : own_post e = false -> tame (emit e).
Proof.
  intros He st st' r [= <- <-]. split; [apply same_project_refl|].
  exists [e]. simpl. by rewrite He.
Qed.

Lemma tame_on_forge {A} (f : W -> result A * W) : tame (on_forge f).
Proof.
  intros st st' r. unfold on_forge. destruct (f (forge st)) as [r' w].
  intros [= <- <-]. split; [apply same_project_refl|].
  exists []. by rewrite app_nil_r.
Qed.

Lemma tame_on {A} (o : PagureProject) (m : M A) : tame m -> tame (on o m).
Proof.
  intros Hm st st' r. unfold on.
  destruct (m _) as [r' s] eqn:E. intros [= <- <-].
  destruct (Hm _ _ _ E) as (_ & evs & Ht & Hp). simpl in *.
  split; [apply same_project_refl | by exists evs].
Qed.

Lemma tame_call_api (r : request) :
  method r <> Some "POST" -> tame (call_api r).
Proof.
  intros Hr. apply tame_bind; [|intros; apply tame_on_forge].
  apply tame_emit. unfold own_post, posts.
  destruct (method r) as [m|]; [|done].
  apply String.eqb_neq. congruence.
Qed.

Lemma tame_call_api_raw (r : request) :
  method r <> Some "POST" -> tame (call_api_raw r).
Proof.
  intros Hr. apply tame_bind; [|intros; apply tame_on_forge].
  apply tame_emit. unfold own_post, posts.
  destruct (method r) as [m|]; [|done].
  apply String.eqb_neq. congruence.
Qed.

Lemma tame__user : tame _user.
Proof.
  intros st st' r H. split.
  - destruct (_user_frame _ _ _ H) as (? & ? & ? & ?). by repeat split.
  - revert H. unfold _user, get_username. run.
    destruct (unset (_username (this st))); run.
    + destruct (user_get_username (forge st)) as [[[e|u] sent] w]; simpl;
        intros [= <- <-]; by exists [GetUsername sent].
    + intros [= <- <-]. exists []. by rewrite app_nil_r.
Qed.

Lemma tame__get_project_url (args : list string)
    (add_fork_part add_api_endpoint_part : bool) :
  tame (_get_project_url args add_fork_part add_api_endpoint_part).
Proof.
  unfold _get_project_url.
  apply tame_bind; [apply tame_get_this | intros self].
  apply tame_bind; [|intros; apply tame_bind; [apply tame_get_this|]].
  - destruct (_ && _); [|apply tame_ret].
    apply tame_bind; [apply tame__user | intros; apply tame_ret].
  - intros; apply tame_ret.
Qed.

Lemma tame__call_project_api (args : list string)
    (add_fork_part add_api_endpoint_part : bool) (method : option string)
    (params data : option (gmap string json)) :
  method <> Some "POST" ->
  tame (_call_project_api args add_fork_part add_api_endpoint_part method
          params data).
Proof.
  intros Hm. unfold _call_project_api.
  apply tame_bind; [apply tame__get_project_url|].
  intros. by apply tame_call_api.
Qed.

Lemma tame__call_project_api_raw (args : list string)
    (add_fork_part add_api_endpoint_part : bool) (method : option string)
    (params data : option (gmap string json)) :
  method <> Some "POST" ->
  tame (_call_project_api_raw args add_fork_part add_api_endpoint_part method
          params data).
Proof.
  intros Hm. unfold _call_project_api_raw.
  apply tame_bind; [apply tame__get_project_url|].
  intros. by apply tame_call_api_raw.
Qed.

Lemma tame_get_project_info : tame get_project_info.
Proof. by apply tame__call_project_api. Qed.

Ltac tame_step :=
  match goal with
  | |- tame (bind _ _) => apply tame_bind; [|intros ?]
  | |- tame (ret _) => apply tame_ret
  | |- tame (raise _) => apply tame_raise
  | |- tame (lift _) => apply tame_lift
  | |- tame get_this => apply tame_get_this
  | |- tame _user => apply tame__user
  | |- tame get_project_info => apply tame_get_project_info
  | |- tame (on _ _) => apply tame_on
  | |- tame (_call_project_api _ _ _ _ _ _) =>
      apply tame__call_project_api; discriminate
  | |- tame (_call_project_api_raw _ _ _ _ _ _) =>
      apply tame__call_project_api_raw; discriminate
  | |- tame (call_api _) => apply tame_call_api; discriminate
  | |- tame (emit _) => apply tame_emit; reflexivity
  | |- tame (if ?b then _ else _) => destruct b
  | |- tame (match ?x with _ => _ end) => destruct x
  end.

Lemma tame_exists_ : tame exists_.
Proof. unfold exists_. repeat tame_step. Qed.

Lemma tame_get_is_fork_from_api : tame get_is_fork_from_api.
Proof. unfold get_is_fork_from_api. repeat tame_step. Qed.

Lemma tame_parent : tame parent.
Proof.
  unfold parent. apply tame_bind; [apply tame_get_is_fork_from_api|].
  intros []; repeat tame_step.
Qed.

Lemma tame__construct_fork_project : tame _construct_fork_project.
Proof. unfold _construct_fork_project. repeat tame_step. Qed.

Lemma tame_is_forked : tame is_forked.
Proof.
  unfold is_forked.
  apply tame_bind; [apply tame__construct_fork_project | intros f].
  apply tame_bind; [apply tame_on, tame_exists_ | intros [[] f1]];
    [|apply tame_ret].
  apply tame_bind; [apply tame_on, tame_parent | intros [[g|] f2]];
    [|apply tame_raise].
  apply tame_bind; [apply tame_on, tame_exists_ | intros [e' ?]].
  apply tame_ret.
Qed.

Lemma tame_fork_objects (projects : list json) : tame (fork_objects projects).
Proof.
  induction projects as [|fork rest IH]; simpl; [apply tame_ret|].
  apply tame_bind; [unfold fork_object; repeat tame_step|].
  intros p. apply tame_bind; [done | intros; apply tame_ret].
Qed.

Lemma tame_get_forks : tame get_forks.
Proof.
  unfold get_forks. repeat tame_step. apply tame_fork_objects.
Qed.

Lemma tame_find_own_fork (forks : list PagureProject) :
  tame (find_own_fork forks).
Proof.
  induction forks as [|fork rest IH]; simpl; [apply tame_ret|].
  apply tame_bind; [apply tame_on, tame_get_project_info | intros [info f]].
  repeat tame_step. exact IH.
Qed.

Lemma tame_get_fork_without_create : tame (get_fork false).
Proof.
  unfold get_fork, is_fork, logger_info.
  apply tame_bind; [repeat tame_step | intros []]; [apply tame_raise|].
  apply tame_bind; [apply tame_get_forks | intros forks].
  apply tame_bind; [apply tame_find_own_fork | intros [f|]];
    [apply tame_ret|].
  apply tame_bind; [apply tame_is_forked | intros []]; simpl;
    repeat tame_step.
  apply tame__construct_fork_project.
Qed.

Lemma post_not_own_is_lookup (e : event) :
  own_post e = false -> is_post e = true ->
  exists sent : list request, e = GetUsername sent.
Proof. destruct e as [r|r|sent|msg]; simpl; try congruence. by exists sent. Qed.

Lemma tame_posts_are_lookups {A} (m : M A) (st st' : state) (r : result A) :
  tame m ->
  m st = (r, st') ->
  same_project (this st) (this st')
  /\ exists evs : list event,
       trace st' = trace st ++ evs
       /\ Forall (fun e =>
                   own_post e = false
                   /\ (is_post e = true ->
                       exists sent : list request, e = GetUsername sent))
            evs.
Proof.
  intros Hm H. destruct (Hm _ _ _ H) as (Hs & evs & Ht & Hq).
  split; [done|]. exists evs. split; [done|].
  apply Forall_forall. intros e He.
  assert (Ho : own_post e = false).
  { apply list_elem_of_In in He.
    apply (proj1 (forallb_forall _ _) Hq) in He.
    by apply negb_true_iff in He. }
  split; [done | by apply post_not_own_is_lookup].
Qed.

(** X10.  Asked not to create, [get_fork] sends no POST of its own:
    whatever comes of it, none of the calls it made through [call_api] or
    [call_api_raw] has method POST, so that a POST in what it added to the
    trace can only be one that a look-up of the user name sent; and the
    handle still names the same project (repo, namespace, fork flag and
    read-only flag as before). *)
Theorem get_fork_without_create_only_reads (st st' : state)
    (r : result (option PagureProject)) :
  get_fork false st = (r, st') ->
  same_project (this st) (this st')
  /\ exists evs : list event,
       trace st' = trace st ++ evs
       /\ Forall (fun e =>
                   own_post e = false
                   /\ (is_post e = true ->
                       exists sent : list request, e = GetUsername sent))
            evs.
Proof. apply tame_posts_are_lookups, tame_get_fork_without_create. Qed.

(** X11.  [is_forked] sends no POST of its own either: two probes and the
    reading of the fork's info, none of them with method POST, so that a
    POST in what it added to the trace can only be one that a look-up of
    the user name sent; and the handle still names the same project. *)
Theorem is_forked_only_reads (st st' : state) (r : result bool) :
  is_forked st = (r, st') ->
  same_project (this st) (this st')
  /\ exists evs : list event,
       trace st' = trace st ++ evs
       /\ Forall (fun e =>
                   own_post e = false
                   /\ (is_post e = true ->
                       exists sent : list request, e = GetUsername sent))
            evs.
Proof. apply tame_posts_are_lookups, tame_is_forked. Qed.

(** *** The handles that come back *)

Lemma fork_objects_are_forks (projects : list json)
    (forks : list PagureProject) (st st' : state) :
  fork_objects projects st = (inr forks, st') ->
  st' = st
  /\ length forks = length projects
  /\ Forall (fun f => _is_fork f = true
                      /\ read_only f = service_read_only service) forks.
Proof.
  revert forks st'.
  induction projects as [|fork rest IH]; intros forks st'; simpl.
  - by intros [= <- <-].
  - unfold bind at 1.
    destruct (fork_object fork st) as [[e|p] s] eqn:Hp; [done|].
    assert (s = st /\ _is_fork p = true
            /\ read_only p = service_read_only service) as (-> & Hf & Hr).
    { revert Hp. unfold fork_object. run.
      repeat (match goal with
              | |- context [match ?x with inl _ => _ | inr _ => _ end] =>
                  destruct x; simpl; [done|]
              end).
      by intros [= <- <-]. }
    unfold bind at 1.
    destruct (fork_objects rest st) as [[e|ps] s] eqn:Hps; [done|].
    destruct (IH _ _ eq_refl) as (-> & Hlen & Hall).
    intros [= <- <-]. split; [done|]. split; [simpl; by rewrite Hlen|].
    by constructor.
Qed.

(** X12.  Every handle [get_forks] returns is marked as a fork and has the
    service's read-only flag; the listing costs one request to the
    projects endpoint, with fork=true and the repo as pattern, and that
    request has no method set. *)
Theorem get_forks_are_forks (st st' : state) (forks : list PagureProject) :
  get_forks st = (inr forks, st') ->
  Forall (fun f => _is_fork f = true
                   /\ read_only f = service_read_only service) forks
  /\ this st' = this st
  /\ trace st' =
       trace st ++
       [CallApi {| url := get_api_url [Some "projects"] true; method := None;
                   params := Some {[ "fork" := JBool true;
                                     "pattern" := JStr (repo (this st)) ]};
                   data := None |}].
Proof.
  unfold get_forks, call_api. run.
  destruct (service_call_api _ (forge st)) as [[e|response] w]; simpl;
    [done|].
  destruct (getitem response "projects") as [e|projects]; simpl; [done|].
  destruct (iter_json projects) as [e|l]; simpl; [done|].
  intros H. apply fork_objects_are_forks in H as (-> & _ & Hall). done.
Qed.

(** X13.  The handle [parent] returns is never marked as a fork: it has
    the repo of the handle asked, no user name yet, and the service's
    read-only flag. *)
Theorem parent_is_no_fork (st st' : state) (g : PagureProject) :
  parent st = (inr (Some g), st') ->
  _is_fork g = false
  /\ repo g = repo (this st)
  /\ _username g = None
  /\ read_only g = service_read_only service.
Proof.
  unfold parent. unfold bind at 1.
  destruct (get_is_fork_from_api st) as [[e|[]] s] eqn:Hb; [done| |done].
  destruct (tame_get_is_fork_from_api _ _ _ Hb) as ((Hrepo & _) & _).
  unfold bind at 1. unfold get_this at 1. unfold bind at 1.
  destruct (get_project_info s) as [[e|info] s1]; [done|]. run.
  destruct (getitem info "parent") as [e|p]; simpl; [done|].
  destruct (getitem p "namespace") as [e|ns]; simpl; [done|].
  destruct (as_optional_str ns) as [e|ns']; simpl; [done|].
  intros [= <- <-]. simpl. by rewrite Hrepo.
Qed.

Lemma _construct_fork_project_handle (st st' : state) (f : PagureProject) :
  _construct_fork_project st = (inr f, st') ->
  _is_fork f = true
  /\ repo f = repo (this st)
  /\ namespace f = namespace (this st)
  /\ read_only f = service_read_only service
  /\ exists u : string, _user st = (inr u, st') /\ _username f = Some u.
Proof.
  unfold _construct_fork_project. run.
  destruct (_user st) as [[e|u] s] eqn:Hu; [done|].
  intros [= <- <-]. simpl. split_and!; try done. by exists u.
Qed.

(** X14.  On a client that is not read-only, [fork_create] first posts
    repo, namespace and wait=true to the fork endpoint.  If the forge
    refuses, the error is the outcome and no handle comes back; if it
    accepts, the handle returned is marked as a fork of the same repo and
    namespace, owned by the user. *)
Theorem fork_create_posts_first (st : state) :
  read_only (this st) = false ->
  let post :=
    {| url := get_api_url [Some "fork"] true; method := Some "POST";
       params := None;
       data := Some {[ "repo" := JStr (repo (this st));
                       "namespace" := of_optional_str (namespace (this st));
                       "wait" := JBool true ]} |} in
  forall (answer : result json) (w : W),
    service_call_api post (forge st) = (answer, w) ->
    let st1 := {| forge := w; trace := trace st ++ [CallApi post];
                  this := this st |} in
    match answer with
    | inl e => fork_create st = (inl e, st1)
    | inr _ =>
        fork_create st = _construct_fork_project st1
        /\ forall (f : PagureProject) (st' : state),
             fork_create st = (inr f, st') ->
             _is_fork f = true
             /\ repo f = repo (this st)
             /\ namespace f = namespace (this st)
             /\ exists u : string, _user st1 = (inr u, st')
                                   /\ _username f = Some u
    end.
Proof.
  intros Hro post answer w Hpost st1.
  assert (Hrun : fork_create st =
                 match answer with
                 | inl e => (inl e, st1)
                 | inr _ => _construct_fork_project st1
                 end).
  { unfold fork_create, if_readonly, call_api. run. rewrite Hro. simpl.
    fold post. rewrite Hpost. by destruct answer. }
  destruct answer as [e|response]; [done|]. split; [done|].
  intros f st'. rewrite Hrun. intros H.
  apply _construct_fork_project_handle in H as (? & ? & ? & _ & ?). done.
Qed.


Lemma on_same_project {A} (o o' : PagureProject) (m : M A) (a : A)
    (st st' : state) :
  tame m -> on o m st = (inr (a, o'), st') -> same_project o o'.
Proof.
  intros Hm. unfold on. destruct (m _) as [[e|a'] s] eqn:E; [done|].
  intros [= <- <- <-]. by destruct (Hm _ _ _ E) as [Hs _].
Qed.

Lemma find_own_fork_member (forks : list PagureProject) (st st' : state)
    (f : PagureProject) :
  find_own_fork forks st = (inr (Some f), st') ->
  exists fork : PagureProject, fork ∈ forks /\ same_project fork f.
Proof.
  revert st. induction forks as [|fork rest IH]; intros st; simpl; [done|].
  unfold bind at 1.
  destruct (on fork get_project_info st) as [[e|[info fork']] s1] eqn:Hon;
    [done|].
  apply on_same_project in Hon; [|apply tame_get_project_info].
  unfold bind at 1. destruct (_user s1) as [[e|u] s2]; [done|].
  unfold bind at 1, lift at 1.
  destruct (getitem info "user") as [e|owner]; [done|].
  unfold bind at 1, lift at 1.
  destruct (getitem owner "name") as [e|nm]; [done|].
  unfold bind at 1, lift at 1.
  destruct (contains u nm) as [e|[]]; [done| |].
  - intros [= <- <-]. exists fork. split; [by left | done].
  - intros H. destruct (IH _ H) as (fork0 & Hin & Hs).
    exists fork0. split; [by right | done].
Qed.

Lemma get_forks_are_forks_all (st st' : state) (forks : list PagureProject) :
  get_forks st = (inr forks, st') ->
  Forall (fun f => _is_fork f = true) forks.
Proof.
  unfold get_forks, call_api. run.
  destruct (service_call_api _ (forge st)) as [[e|response] w]; simpl;
    [done|].
  destruct (getitem response "projects") as [e|projects]; simpl; [done|].
  destruct (iter_json projects) as [e|l]; simpl; [done|].
  intros H. apply fork_objects_are_forks in H as (_ & _ & Hall).
  eapply Forall_impl; [done|]. by intros f [? _].
Qed.

Lemma fork_create_handle (st st' : state) (f : PagureProject) :
  read_only (this st) = false ->
  fork_create st = (inr f, st') ->
  _is_fork f = true.
Proof.
  intros Hro. unfold fork_create, if_readonly, call_api. run. rewrite Hro.
  simpl. destruct (service_call_api _ (forge st)) as [[e|response] w]; simpl;
    [done|].
  intros H. by apply _construct_fork_project_handle in H as (? & _).
Qed.

(** X15.  What [get_fork] returns is a fork: on a client that is not
    read-only, or when asked not to create, a handle that comes back is
    marked as a fork, whether it was found in the forge's list, created, or
    put together without asking. *)
Theorem get_fork_gives_a_fork (st st' : state) (create : bool)
    (f : PagureProject) :
  (create = true -> read_only (this st) = false) ->
  get_fork create st = (inr (Some f), st') ->
  _is_fork f = true.
Proof.
  intros Hro. unfold get_fork. unfold bind at 1.
  change (is_fork st) with (inr (A := exn) (_is_fork (this st)), st).
  destruct (_is_fork (this st)); [done|].
  unfold bind at 1. destruct (get_forks st) as [[e|forks] s1] eqn:Hfs; [done|].
  unfold bind at 1.
  destruct (find_own_fork forks s1) as [[e|[f'|]] s2] eqn:Hfind; [done| |].
  - intros [= <- <-].
    apply find_own_fork_member in Hfind as (fork & Hin & _ & _ & <- & _).
    apply get_forks_are_forks_all in Hfs.
    by apply (proj1 (Forall_forall _ _) Hfs) in Hin.
  - unfold bind at 1.
    destruct (is_forked s2) as [[e|[]] s3] eqn:Hif; [done| |]; simpl.
    + unfold bind at 1.
      destruct (_construct_fork_project s3) as [[e|f0] s4] eqn:Hc; [done|].
      intros [= <- <-]. by apply _construct_fork_project_handle in Hc as (? & _).
    + destruct create.
      * unfold bind at 1.
        destruct (fork_create s3) as [[e|f0] s4] eqn:Hc; [done|].
        intros [= <- <-]. eapply fork_create_handle; [|done].
        destruct (tame_is_forked _ _ _ Hif) as ((_ & _ & _ & <-) & _).
        destruct (tame_find_own_fork _ _ _ _ Hfind) as ((_ & _ & _ & <-) & _).
        destruct (tame_get_forks _ _ _ Hfs) as ((_ & _ & _ & <-) & _).
        by apply Hro.
      * unfold bind, get_this, logger_info, emit, ret. simpl. done.
Qed.

(** *** Which fork is the user's *)

Lemma string_app_nil (s : string) : "" +:+ s = s.
Proof. reflexivity. Qed.

Lemma string_app_cons (c : ascii) (a b : string) :
  String c a +:+ b = String c (a +:+ b).
Proof. reflexivity. Qed.

Lemma prefix_app (u post : string) : String.prefix u (u +:+ post) = true.
Proof.
  induction u as [|a u IH].
  - rewrite string_app_nil. by destruct post.
  - rewrite string_app_cons. simpl. by destruct (ascii_dec a a).
Qed.

Lemma prefix_split (u h : string) :
  String.prefix u h = true -> exists post : string, h = u +:+ post.
Proof.
  revert h. induction u as [|a u IH]; intros h.
  - by exists h.
  - destruct h as [|b h]; [done|]. simpl.
    destruct (ascii_dec a b) as [<-|]; [|done].
    intros [post ->]%IH. by exists post.
Qed.

Lemma str_contains_unfold (needle hay : string) :
  str_contains needle hay =
  String.prefix needle hay ||
  match hay with
  | EmptyString => false
  | String _ hay' => str_contains needle hay'
  end.
Proof. by destruct hay. Qed.

Lemma str_contains_substring (u nm : string) :
  str_contains u nm = true
  <-> exists pre post : string, nm = pre +:+ u +:+ post.
Proof.
  split.
  - induction nm as [|c nm IH]; rewrite str_contains_unfold.
    + rewrite orb_false_r. intros [post ->]%prefix_split. by exists "", post.
    + intros [[post ->]%prefix_split | (pre & post & ->)%IH]%orb_true_iff.
      * by exists "", post.
      * by exists (String c pre), post.
  - intros (pre & post & ->). induction pre as [|c pre IH].
    + rewrite string_app_nil, str_contains_unfold. by rewrite prefix_app.
    + rewrite string_app_cons, str_contains_unfold, IH. apply orb_true_r.
Qed.

(** X16.  The fork that counts as the user's own is picked by a substring
    test: with the owner's name [nm] in the info of the first fork listed,
    that fork is returned exactly when the user's name occurs somewhere in
    [nm], equal or not, and otherwise the search goes on with the rest of
    the list. *)
Theorem find_own_fork_by_substring (st s1 s2 : state)
    (fork fork' : PagureProject) (rest : list PagureProject)
    (info owner : json) (u nm : string) :
  on fork get_project_info st = (inr (info, fork'), s1) ->
  _user s1 = (inr u, s2) ->
  getitem info "user" = inr owner ->
  getitem owner "name" = inr (JStr nm) ->
  ((exists pre post : string, nm = pre +:+ u +:+ post) ->
   find_own_fork (fork :: rest) st = (inr (Some fork'), s2))
  /\ ((forall pre post : string, nm <> pre +:+ u +:+ post) ->
      find_own_fork (fork :: rest) st = find_own_fork rest s2).
Proof.
  intros Hon Hu Ho Hn.
  assert (Hrun : find_own_fork (fork :: rest) st =
                 if str_contains u nm then (inr (Some fork'), s2)
                 else find_own_fork rest s2).
  { simpl. unfold bind at 1. rewrite Hon. unfold bind at 1. rewrite Hu.
    unfold bind at 1, lift at 1. rewrite Ho.
    unfold bind at 1, lift at 1. rewrite Hn.
    unfold bind at 1, lift at 1. simpl. by destruct (str_contains u nm). }
  rewrite Hrun. split.
  - intros H%str_contains_substring. by rewrite H.
  - intros H. destruct (str_contains u nm) eqn:E; [|done].
    apply str_contains_substring in E as (pre & post & ->). by destruct (H pre post).
Qed.

(** *** The name and the URL of a project *)

Lemma string_app_assoc (a b c : string) : (a +:+ b) +:+ c = a +:+ (b +:+ c).
Proof.
  induction a as [|x a IH]; [done|].
  by rewrite !string_app_cons, IH.
Qed.

(** X17.  Unless the namespace is the empty string, the parts of the
    project's URL, joined with slashes, spell [full_repo_name]: the fork
    prefix, the namespace if there is one, and the repo. *)
Theorem full_repo_name_is_url_path (st st' : state) (nm : string)
    (add_api_endpoint_part : bool) :
  namespace (this st) <> Some "" ->
  full_repo_name st = (inr nm, st') ->
  exists parts : list (option string),
    _get_project_url [] true add_api_endpoint_part st =
      (inr (get_api_url parts add_api_endpoint_part), st')
    /\ String.concat "/" (omap id parts) = nm.
Proof.
  intros Hns. unfold full_repo_name. unfold bind at 1.
  change (is_fork st) with (inr (A := exn) (_is_fork (this st)), st).
  destruct (_is_fork (this st)) eqn:Hf.
  - unfold bind at 1. unfold bind at 1.
    destruct (_user st) as [[e|u] s] eqn:Hu; [done|]. run.
    intros [= <- <-].
    destruct (_user_frame _ _ _ Hu) as (Hr & Hn & _). rewrite Hr, Hn.
    eexists. split; [by apply _get_project_url_fork|].
    destruct (namespace (this st)) as [ns|] eqn:E; simpl.
    + destruct (String.eqb_spec ns ""); [congruence|].
      destruct ns as [|c ns]; [done|]. simpl.
      by rewrite !string_app_assoc.
    + by rewrite !string_app_assoc.
  - run. intros [= <- <-].
    eexists. split; [apply _get_project_url_plain; by rewrite Hf|].
    destruct (namespace (this st)) as [ns|] eqn:E; simpl.
    + destruct (String.eqb_spec ns ""); [congruence|].
      by rewrite !string_app_assoc.
    + done.
Qed.

(** *** Pull requests *)

(** X18.  On a client that is not read-only, [create_pr] does not look at
    [fork_username]: whatever is passed for it, the call is the same. *)
Theorem create_pr_ignores_fork_username (st : state)
    (title body target_branch source_branch : string)
    (fork_username fork_username' : option string) :
  read_only (this st) = false ->
  create_pr title body target_branch source_branch fork_username st =
  create_pr title body target_branch source_branch fork_username' st.
Proof. intros Hro. unfold create_pr, if_readonly. run. by rewrite Hro. Qed.

End Project.

Arguments forge {W} _.
Arguments trace {W} _.
Arguments this {W} _.

(** ** The properties at work on the demo forge *)

Local Abbreviation fresh p := {| forge := tt; trace := []; this := p |}.
Local Abbreviation stand_in a := (fun st : state unit => (inr a, st)).
Local Abbreviation demo_url :=
  (_get_project_url unit Demo.pagure_io Demo.get_username).
Local Abbreviation flag_stand_in :=
  (fun (commit status target_url description context : string)
       (percent : option Z) (uid : option string) =>
     stand_in {| flag_commit := JStr commit; flag_comment := JStr description;
                 flag_state := JStr status; flag_context := JStr context;
                 flag_url := JStr target_url; flag_uid := JNull |}).
Local Abbreviation demo_set_commit_status :=
  (set_commit_status unit Demo.pagure_io Demo.call_api Demo.get_username
     flag_stand_in).
Local Abbreviation demo_fork_create :=
  (fork_create unit Demo.pagure_io Demo.call_api Demo.get_username
     (fun st : state unit => (inr (this st), st))).
Local Abbreviation demo_get_fork :=
  (get_fork unit Demo.pagure_io Demo.call_api Demo.call_api_raw
     Demo.get_username (fun st : state unit => (inr (this st), st))).
Local Abbreviation demo_get_file_content :=
  (get_file_content unit Demo.pagure_io Demo.call_api_raw Demo.get_username
     Demo.decode).

(** The URL of a plain project and of alice's fork. *)
Lemma project_url_fork_part_witness :
  fst (demo_url ["git"; "tags"] false true (fresh Demo.ogr))
    = inr "https://pagure.io/api/0/rpms/ogr/git/tags"
  /\ fst (demo_url ["git"; "tags"] true true (fresh Demo.alices_fork))
       = inr "https://pagure.io/api/0/fork/alice/rpms/ogr/git/tags"
  /\ exists request_url : string,
       fst (demo_url ["git"; "tags"] true true (fresh Demo.alices_fork))
         = inr request_url
       /\ segments request_url
          = ["https:"; ""; "pagure.io"; "api"; "0";
             "fork"; "alice"; "rpms"; "ogr"; "git"; "tags"].
Proof.
  pose proof (proj1 (project_url_fork_part unit Demo.pagure_io
                       Demo.get_username (fresh Demo.ogr)
                       ["git"; "tags"] true) eq_refl false) as Hplain.
  pose proof (proj2 (project_url_fork_part unit Demo.pagure_io
                       Demo.get_username (fresh Demo.alices_fork)
                       ["git"; "tags"] true) eq_refl "alice"
                (fresh Demo.alices_fork) eq_refl) as Hfork.
  destruct Hplain as (plain_url & Hplain & -> & _).
  destruct Hfork as (fork_url & Hfork & Hurl & Hsegments).
  split_and!.
  - exact (f_equal fst Hplain).
  - subst fork_url. exact (f_equal fst Hfork).
  - exists fork_url. split; [exact (f_equal fst Hfork) | exact Hsegments].
Defined.

(** A project in a namespace called fork is no fork, and yet its URL has a
    fork segment. *)
Lemma project_url_fork_namespace :
  exists request_url : string,
    _is_fork Demo.fork_ogr = false
    /\ demo_url [] true true (fresh Demo.fork_ogr)
         = (inr request_url, fresh Demo.fork_ogr)
    /\ request_url = "https://pagure.io/api/0/fork/ogr"
    /\ "fork" ∈ segments request_url.
Proof.
  eexists. split_and!; [reflexivity | reflexivity | reflexivity |].
  vm_compute. repeat constructor.
Qed.

(** Nor need a segment be called fork as a whole: a file in a directory
    of that name will do. *)
Example project_url_fork_in_path :
  fst (demo_url ["raw"; "master"; "f"; "fork/README.md"] true false
         (fresh Demo.ogr))
    = inr "https://pagure.io/rpms/ogr/raw/master/f/fork/README.md"
  /\ "fork" ∈ segments "https://pagure.io/rpms/ogr/raw/master/f/fork/README.md".
Proof. split; [reflexivity|]. vm_compute. repeat constructor. Qed.

Local Abbreviation demo_info_request :=
  {| url := "https://pagure.io/api/0/rpms/ogr"; method := Some "GET";
     params := None; data := None |}.
Local Abbreviation demo_tags_request :=
  {| url := "https://pagure.io/api/0/rpms/ogr/git/tags"; method := None;
     params := Some {[ "with_commits" := JBool true ]}; data := None |}.
Local Abbreviation after_call r p :=
  {| forge := tt; trace := [CallApi r]; this := p |}.

(** The scenario of the specification: a, b, c and d hold one level each. *)
Lemma who_can_merge_pr_subset_witness :
  fst (who_can_merge_pr unit Demo.pagure_io Demo.call_api Demo.get_username
         (fresh Demo.ogr))
    = inr {[ HStr "a"; HStr "b"; HStr "d" ]}
  /\ fst (who_can_close_issue unit Demo.pagure_io Demo.call_api
            Demo.get_username (fresh Demo.ogr))
       = inr {[ HStr "a"; HStr "b"; HStr "c"; HStr "d" ]}.
Proof.
  destruct (who_can_merge_pr_subset unit Demo.pagure_io Demo.call_api
              Demo.get_username
              (fresh Demo.ogr) (after_call demo_info_request Demo.ogr)
              (fresh Demo.ogr) (after_call demo_info_request Demo.ogr)
              Demo.ogr_info [HStr "a"] [HStr "b"] [HStr "c"] [HStr "d"]
              eq_refl eq_refl eq_refl eq_refl eq_refl eq_refl)
    as (merge & close & Hm & Hc & -> & -> & _).
  rewrite Hm, Hc. split; reflexivity.
Defined.

(** A percent of 0 and an empty uid are given, and the payload holds
    neither. *)
Lemma set_commit_status_percent_zero :
  exists payload : gmap string json,
    trace (snd (demo_set_commit_status "sha1" "success" "u" "d" "ctx"
                  (Some 0%Z) (Some "") (fresh Demo.ogr)))
      = [CallApi {| url := "https://pagure.io/api/0/rpms/ogr/c/sha1/flag";
                    method := Some "POST"; params := None;
                    data := Some payload |}]
    /\ payload !! "percent" = None
    /\ payload !! "uid" = None
    /\ size payload = 4.
Proof. eexists. split_and!; reflexivity. Qed.

(** A flag set with a percent of 50: the answer's flag comes back, under the
    uid the forge gave it. *)
Lemma set_commit_status_payload_witness :
  fst (demo_set_commit_status "sha1" "success" "u" "d" "ctx" (Some 50%Z) None
         (fresh Demo.ogr))
    = inr {| flag_commit := JStr "sha1"; flag_comment := JStr "d";
             flag_state := JStr "success"; flag_context := JStr "ctx";
             flag_url := JStr "u"; flag_uid := JStr "f00" |}
  /\ commit_status_data "success" "u" "d" "ctx" (Some 50%Z) None !! "percent"
       = Some (JNum 50).
Proof.
  destruct (set_commit_status_payload unit Demo.pagure_io Demo.call_api
              Demo.get_username flag_stand_in (fresh Demo.ogr) (fresh Demo.ogr)
              "sha1" "success" "u" "d" "ctx" (Some 50%Z) None
              "https://pagure.io/api/0/rpms/ogr/c/sha1/flag"
              eq_refl eq_refl)
    as (_ & Hpercent & _ & _ & r & st2 & Hrun & _ & Hflag).
  split.
  - rewrite Hrun. simpl.
    apply (Hflag Demo.ogr_flag
             (JDict {[ "commit_hash" := JStr "sha1"; "comment" := JStr "d";
                       "status" := JStr "success"; "username" := JStr "ctx";
                       "url" := JStr "u" ]})
             (JStr "f00") (JStr "sha1") (JStr "d") (JStr "success")
             (JStr "ctx") (JStr "u") tt); vm_compute; reflexivity.
  - apply Hpercent. exists 50%Z. split_and!; [reflexivity | discriminate | reflexivity].
Defined.

(** Whatever the arguments, no commit comment. *)
Example commit_comment_on_demo :
  fst (commit_comment unit "sha1" "nice" (Some "README.md") (Some 3%Z)
         (fresh Demo.ogr))
    = inl (OperationNotSupported "Commit comments are not supported on Pagure.").
Proof. reflexivity. Qed.

Local Abbreviation demo_tags_dict :=
  ({[ "v1.0" := {| name := "v1.0"; commit_sha := JStr "abc123" |} ]}
     : gmap string GitTag).

(** The one tag of the demo project is found, another name is not. *)
Lemma get_sha_from_tag_lookup_witness :
  fst (get_sha_from_tag unit Demo.pagure_io Demo.call_api Demo.get_username
         "nonexistent" (fresh Demo.ogr))
    = inl (PagureAPIException "Tag 'nonexistent' not found.")
  /\ fst (get_sha_from_tag unit Demo.pagure_io Demo.call_api Demo.get_username
            "v1.0" (fresh Demo.ogr))
       = inr (JStr "abc123").
Proof.
  assert (Hdict :
    get_tags_dict unit Demo.pagure_io Demo.call_api Demo.get_username
      (fresh Demo.ogr)
    = (inr demo_tags_dict, after_call demo_tags_request Demo.ogr))
    by (vm_compute; reflexivity).
  split.
  - assert (Hnone : demo_tags_dict !! "nonexistent" = None)
      by (vm_compute; reflexivity).
    rewrite (proj1 (proj1 (get_sha_from_tag_lookup unit Demo.pagure_io
                             Demo.call_api Demo.get_username _ _ _
                             "nonexistent" Hdict) Hnone)).
    reflexivity.
  - assert (Hsome : demo_tags_dict !! "v1.0"
                    = Some {| name := "v1.0"; commit_sha := JStr "abc123" |})
      by (vm_compute; reflexivity).
    rewrite (proj2 (get_sha_from_tag_lookup unit Demo.pagure_io
                      Demo.call_api Demo.get_username _ _ _ "v1.0" Hdict)
               _ Hsome).
    reflexivity.
Defined.

Local Abbreviation raw_request path :=
  {| url := "https://pagure.io/rpms/ogr/raw/master/f/" +:+ path;
     method := None; params := None; data := None |}.

(** Four files of the demo project: one that is there, one the forge does
    not know, one that gets no response, one on a broken line. *)
Lemma get_file_content_outcomes_witness :
  fst (demo_get_file_content "README.md" "master" (fresh Demo.ogr))
    = inr "# ogr"
  /\ fst (demo_get_file_content "LICENSE" "master" (fresh Demo.ogr))
       = inl (FileNotFoundError "File 'LICENSE' on master not found" None)
  /\ fst (demo_get_file_content "void" "master" (fresh Demo.ogr))
       = inl (FileNotFoundError "File 'void' on master not found" None)
  /\ fst (demo_get_file_content "down" "master" (fresh Demo.ogr))
       = inl (FileNotFoundError "Problem with getting file 'down' on master"
                (Some (OurPagureRawRequest "connection reset"))).
Proof.
  split_and!.
  - destruct (get_file_content_outcomes unit Demo.pagure_io Demo.call_api_raw
                Demo.get_username Demo.decode (fresh Demo.ogr) (fresh Demo.ogr)
                "README.md" "master" _ _ tt eq_refl eq_refl)
      as (_ & _ & _ & H).
    rewrite (H _ "# ogr" eq_refl ltac:(discriminate) eq_refl). reflexivity.
  - destruct (get_file_content_outcomes unit Demo.pagure_io Demo.call_api_raw
                Demo.get_username Demo.decode (fresh Demo.ogr) (fresh Demo.ogr)
                "LICENSE" "master" _ _ tt eq_refl eq_refl)
      as (_ & H & _ & _).
    rewrite (H _ eq_refl eq_refl). reflexivity.
  - destruct (get_file_content_outcomes unit Demo.pagure_io Demo.call_api_raw
                Demo.get_username Demo.decode (fresh Demo.ogr) (fresh Demo.ogr)
                "void" "master" _ _ tt eq_refl eq_refl)
      as (H & _ & _ & _).
    rewrite (H eq_refl). reflexivity.
  - destruct (get_file_content_outcomes unit Demo.pagure_io Demo.call_api_raw
                Demo.get_username Demo.decode (fresh Demo.ogr) (fresh Demo.ogr)
                "down" "master" _ _ tt eq_refl eq_refl)
      as (_ & _ & H & _).
    rewrite (H _ eq_refl). reflexivity.
Defined.

(** Alice's fork has no fork of its own to offer, and the trace stays
    empty. *)
Lemma get_fork_of_fork_witness :
  demo_get_fork true (fresh Demo.alices_fork)
    = (inl (OgrException "Cannot create fork from fork."),
       fresh Demo.alices_fork)
  /\ demo_get_fork false (fresh Demo.alices_fork)
       = (inl (OgrException "Cannot create fork from fork."),
          fresh Demo.alices_fork).
Proof.
  split; apply get_fork_of_fork; reflexivity.
Defined.

Local Abbreviation pr_stand_in :=
  (fun (title body target_branch source_branch : string)
       (fork_username : option string) => stand_in title).

(** A read-only handle of the demo project: forking gives the handle back
    and the trace stays empty. *)
Lemma read_only_redirects_witness :
  fork_create unit Demo.pagure_io Demo.call_api Demo.get_username
    (fun st : state unit => (inr (this st), st)) (fresh Demo.ogr_read_only)
    = (inr Demo.ogr_read_only, fresh Demo.ogr_read_only)
  /\ posts_nothing unit
       (fork_create unit Demo.pagure_io Demo.call_api Demo.get_username
          (fun st : state unit => (inr (this st), st)))
       (fresh Demo.ogr_read_only).
Proof.
  destruct (read_only_redirects unit Demo.pagure_io Demo.call_api
              Demo.get_username string
              (fun title body target_branch source_branch => stand_in title)
              pr_stand_in (fun st : state unit => (inr (this st), st))
              flag_stand_in (fresh Demo.ogr_read_only)
              "title" "body" "master" "topic" None
              "sha1" "success" "u" "d" "ctx" None None eq_refl)
    as ((_ & Hfork & _) & _ & Hposts & _).
  split.
  - rewrite Hfork. reflexivity.
  - apply Hposts. exists []. split; reflexivity.
Defined.

(** The tag of the demo project, in the list and in the dictionary. *)
Lemma tags_views_consistent_witness :
  exists (l : list GitTag) (d : gmap string GitTag),
    fst (get_tags unit Demo.pagure_io Demo.call_api Demo.get_username
           (fresh Demo.ogr)) = inr l
    /\ fst (get_tags_dict unit Demo.pagure_io Demo.call_api Demo.get_username
              (fresh Demo.ogr)) = inr d
    /\ dom d = {[ "v1.0" ]}
    /\ NoDup (name <$> l).
Proof.
  assert (Hresponse :
    tags_response unit Demo.pagure_io Demo.call_api Demo.get_username
      (fresh Demo.ogr)
    = (inr Demo.ogr_tags, after_call demo_tags_request Demo.ogr))
    by (vm_compute; reflexivity).
  assert (Htags :
    getitem Demo.ogr_tags "tags" = inr (JDict {[ "v1.0" := JStr "abc123" ]}))
    by (vm_compute; reflexivity).
  destruct (tags_views_consistent unit Demo.pagure_io Demo.call_api
              Demo.get_username _ _ _ _ _ _ Hresponse Hresponse Htags)
    as (l & d & Hl & Hd & _ & Hdom & _ & Hnd).
  exists l, d. rewrite Hl, Hd, Hdom. split_and!; [done | done | | done].
  apply dom_singleton_L.
Defined.

Local Abbreviation alice_fork_of_ogr :=
  {| repo := "ogr"; namespace := Some "rpms"; _username := Some "alice";
     _is_fork := true; read_only := false |}.
Local Abbreviation ogr_of_alice :=
  {| repo := "ogr"; namespace := Some "rpms"; _username := Some "alice";
     _is_fork := false; read_only := false |}.
Local Abbreviation fork_request method :=
  {| url := "https://pagure.io/api/0/fork/alice/rpms/ogr"; method := method;
     params := None; data := None |}.

(** Alice's fork of the demo project answers, but its info names no
    parent: asking whether the project is forked fails. *)
Lemma is_forked_without_parent_witness :
  fst (is_forked unit Demo.pagure_io Demo.call_api Demo.call_api_raw
         Demo.get_username (fresh Demo.ogr))
    = inl (AttributeError "exists").
Proof.
  assert (Hfork :
    _construct_fork_project unit Demo.pagure_io Demo.get_username
      (fresh Demo.ogr)
    = (inr alice_fork_of_ogr,
       {| forge := tt; trace := [GetUsername [Demo.whoami]];
          this := ogr_of_alice |}))
    by (vm_compute; reflexivity).
  assert (Hexists :
    on unit alice_fork_of_ogr
      (exists_ unit Demo.pagure_io Demo.call_api_raw Demo.get_username)
      {| forge := tt; trace := [GetUsername [Demo.whoami]];
         this := ogr_of_alice |}
    = (inr (true, alice_fork_of_ogr),
       {| forge := tt;
          trace := [GetUsername [Demo.whoami];
                    CallApiRaw (fork_request None)];
          this := ogr_of_alice |}))
    by (vm_compute; reflexivity).
  assert (Hinfo :
    on unit alice_fork_of_ogr
      (get_project_info unit Demo.pagure_io Demo.call_api Demo.get_username)
      {| forge := tt;
         trace := [GetUsername [Demo.whoami];
                   CallApiRaw (fork_request None)];
         this := ogr_of_alice |}
    = (inr (Demo.ogr_info, alice_fork_of_ogr),
       {| forge := tt;
          trace := [GetUsername [Demo.whoami];
                    CallApiRaw (fork_request None);
                    CallApi (fork_request (Some "GET"))];
          this := ogr_of_alice |}))
    by (vm_compute; reflexivity).
  assert (Hparent : getitem Demo.ogr_info "parent" = inr JNull)
    by (vm_compute; reflexivity).
  rewrite (proj1 (is_forked_without_parent unit Demo.pagure_io Demo.call_api
                    Demo.call_api_raw Demo.get_username _ _ _ _ _ _ _ _ _
                    Hfork Hexists Hinfo Hparent eq_refl)).
  reflexivity.
Defined.

(** ** The further properties at work *)

Local Abbreviation resolved :=
  {| forge := tt; trace := [GetUsername [Demo.whoami]];
     this := ogr_of_alice |}.

(** The second time, alice's name comes from the handle. *)
Lemma _user_asks_once_witness :
  _user unit Demo.get_username resolved = (inr "alice", resolved).
Proof.
  apply (_user_asks_once unit Demo.get_username (fresh Demo.ogr) resolved
           "alice" eq_refl).
  discriminate.
Defined.

Local Abbreviation demo_levels H :=
  (H unit Demo.pagure_io Demo.call_api Demo.get_username
     (fresh Demo.ogr) (after_call demo_info_request Demo.ogr)
     (fresh Demo.ogr) (after_call demo_info_request Demo.ogr)
     Demo.ogr_info).

(** c holds the ticket level of the demo project and nothing else. *)
Lemma ticket_only_cannot_merge_witness :
  fst (can_merge_pr unit Demo.pagure_io Demo.call_api Demo.get_username "c"
         (fresh Demo.ogr)) = inr false.
Proof.
  destruct (demo_levels ticket_only_cannot_merge
              [HStr "a"] [HStr "b"] [HStr "c"] [HStr "d"] "c"
              eq_refl eq_refl eq_refl eq_refl eq_refl eq_refl
              ltac:(by apply list_elem_of_singleton)
              ltac:(by intros [=]%list_elem_of_singleton)
              ltac:(by intros [=]%list_elem_of_singleton)
              ltac:(by intros [=]%list_elem_of_singleton))
    as [H _].
  by rewrite H.
Defined.

(** d owns the demo project. *)
Lemma owners_can_merge_witness :
  fst (can_merge_pr unit Demo.pagure_io Demo.call_api Demo.get_username "d"
         (fresh Demo.ogr)) = inr true.
Proof.
  assert (Hown :
    get_owners unit Demo.pagure_io Demo.call_api Demo.get_username
      (fresh Demo.ogr)
    = (inr (JList [JStr "d"]), after_call demo_info_request Demo.ogr))
    by (vm_compute; reflexivity).
  rewrite (demo_levels owners_can_merge [HStr "a"] [HStr "b"] [HStr "d"]
             [JStr "d"] "d" eq_refl eq_refl eq_refl eq_refl eq_refl Hown
             ltac:(by apply list_elem_of_singleton)).
  reflexivity.
Defined.

Local Abbreviation lab_exists :=
  (exists_ unit Demo.pagure_io Lab.call_api_raw Demo.get_username).

(** A project that answers, one that gets no response, one on a broken
    line. *)
Lemma exists_outcomes_witness :
  fst (lab_exists (fresh Demo.ogr)) = inr true
  /\ fst (lab_exists (fresh Lab.void)) = inl (AttributeError "ok")
  /\ fst (lab_exists (fresh Lab.down))
       = inl (OurPagureRawRequest "connection reset").
Proof.
  split_and!.
  - rewrite (exists_outcomes unit Demo.pagure_io Lab.call_api_raw
               Demo.get_username (fresh Demo.ogr) (fresh Demo.ogr) _ _ tt
               eq_refl eq_refl).
    reflexivity.
  - rewrite (exists_outcomes unit Demo.pagure_io Lab.call_api_raw
               Demo.get_username (fresh Lab.void) (fresh Lab.void) _ _ tt
               eq_refl eq_refl).
    reflexivity.
  - rewrite (exists_outcomes unit Demo.pagure_io Lab.call_api_raw
               Demo.get_username (fresh Lab.down) (fresh Lab.down) _ _ tt
               eq_refl eq_refl).
    reflexivity.
Defined.

(** A flag without its url is no [CommitFlag]. *)
Example commit_status_short_flag :
  _commit_status_from_pagure_dict Lab.flag_short JNull = inl (KeyError "url").
Proof. vm_compute. reflexivity. Qed.

Local Abbreviation lab_statuses :=
  (get_commit_statuses unit Demo.pagure_io Lab.call_api Demo.get_username).
Local Abbreviation flags_request commit :=
  {| url := "https://pagure.io/api/0/rpms/ogr/c/" +:+ commit +:+ "/flag";
     method := None; params := None; data := None |}.


(** The commit of the demo project's tag, straight from the answer. *)
Lemma get_sha_from_tag_of_response_witness :
  get_sha_from_tag unit Demo.pagure_io Demo.call_api Demo.get_username "v1.0"
    (fresh Demo.ogr)
  = (inr (JStr "abc123"), after_call demo_tags_request Demo.ogr).
Proof.
  assert (Hresponse :
    tags_response unit Demo.pagure_io Demo.call_api Demo.get_username
      (fresh Demo.ogr)
    = (inr Demo.ogr_tags, after_call demo_tags_request Demo.ogr))
    by (vm_compute; reflexivity).
  assert (Htags :
    getitem Demo.ogr_tags "tags" = inr (JDict {[ "v1.0" := JStr "abc123" ]}))
    by (vm_compute; reflexivity).
  rewrite (get_sha_from_tag_of_response unit Demo.pagure_io Demo.call_api
             Demo.get_username _ _ _ _ "v1.0" Hresponse Htags).
  by rewrite lookup_singleton_eq.
Defined.

(** The one release of the demo project. *)
Lemma get_releases_of_tags_witness :
  exists rs : list PagureRelease,
    fst (get_releases unit Demo.pagure_io Demo.call_api Demo.get_username
           (fresh Demo.ogr)) = inr rs
    /\ length rs = 1
    /\ Forall (fun r => release_url r = "" /\ tarball_url r = "") rs.
Proof.
  assert (Hresponse :
    tags_response unit Demo.pagure_io Demo.call_api Demo.get_username
      (fresh Demo.ogr)
    = (inr Demo.ogr_tags, after_call demo_tags_request Demo.ogr))
    by (vm_compute; reflexivity).
  assert (Htags :
    getitem Demo.ogr_tags "tags" = inr (JDict {[ "v1.0" := JStr "abc123" ]}))
    by (vm_compute; reflexivity).
  pose proof (get_releases_of_tags unit Demo.pagure_io Demo.call_api
                Demo.get_username _ _ _ _ Hresponse Htags) as H.
  destruct H as (rs & Hrs & Hlen & Hall & _).
  exists rs. split_and!.
  - exact (f_equal fst Hrs).
  - etrans; [exact Hlen | apply map_size_singleton].
  - refine (Forall_impl _ _ _ Hall _).
    intros r (H1 & _ & H3 & _). exact (conj H1 H3).
Defined.

(** The second forge lists its tags by name only. *)
Lemma tags_as_list_fail_witness :
  fst (get_tags unit Demo.pagure_io Lab.call_api Demo.get_username
         (fresh Demo.ogr)) = inl (AttributeError "items")
  /\ fst (get_sha_from_tag unit Demo.pagure_io Lab.call_api Demo.get_username
            "v1.0" (fresh Demo.ogr)) = inl (AttributeError "items").
Proof.
  assert (Hresponse :
    tags_response unit Demo.pagure_io Lab.call_api Demo.get_username
      (fresh Demo.ogr)
    = (inr (JDict {[ "tags" := JList [JStr "v1.0"] ]}),
       after_call demo_tags_request Demo.ogr))
    by (vm_compute; reflexivity).
  assert (Htags :
    getitem (JDict {[ "tags" := JList [JStr "v1.0"] ]}) "tags"
    = inr (JList [JStr "v1.0"]))
    by (vm_compute; reflexivity).
  pose proof (tags_as_list_fail unit Demo.pagure_io Lab.call_api
                Demo.get_username _ _ _ _ "v1.0" Hresponse Htags) as H.
  destruct H as (H1 & _ & H3 & _).
  split; [exact (f_equal fst H1) | exact (f_equal fst H3)].
Defined.

Local Abbreviation lab_get_fork :=
  (get_fork unit Demo.pagure_io Lab.call_api Lab.call_api_raw
     Demo.get_username (fun st : state unit => (inr (this st), st))).
Local Abbreviation lab_is_forked :=
  (is_forked unit Demo.pagure_io Lab.call_api Lab.call_api_raw
     Demo.get_username).

(** Looking for a fork of the demo project without creating one: the one
    POST on the wire is the look-up's. *)
Lemma get_fork_without_create_only_reads_witness :
  exists evs : list event,
    trace (snd (lab_get_fork false (fresh Demo.ogr))) = evs
    /\ Forall (fun e =>
                own_post e = false
                /\ (is_post e = true ->
                    exists sent : list request, e = GetUsername sent)) evs
    /\ existsb is_post evs = true.
Proof.
  assert (Hposted :
    existsb is_post (trace (snd (lab_get_fork false (fresh Demo.ogr)))) = true)
    by (vm_compute; reflexivity).
  destruct (lab_get_fork false (fresh Demo.ogr)) as [r st'] eqn:E.
  pose proof (get_fork_without_create_only_reads unit Demo.pagure_io
                Lab.call_api Lab.call_api_raw Demo.get_username _ _ _ _ E)
    as H.
  destruct H as (_ & evs & Hevs & Hall).
  exists evs. split_and!; [exact Hevs | exact Hall |].
  simpl in Hposted. rewrite Hevs in Hposted. exact Hposted.
Defined.

(** Asking the second forge whether the demo project is forked. *)
Lemma is_forked_only_reads_witness :
  same_project Demo.ogr (this (snd (lab_is_forked (fresh Demo.ogr)))).
Proof.
  destruct (lab_is_forked (fresh Demo.ogr)) as [r st'] eqn:E.
  exact (proj1 (is_forked_only_reads unit Demo.pagure_io Lab.call_api
                  Lab.call_api_raw Demo.get_username _ _ _ E)).
Defined.

Local Abbreviation projects_request :=
  {| url := "https://pagure.io/api/0/projects"; method := None;
     params := Some {[ "fork" := JBool true; "pattern" := JStr "ogr" ]};
     data := None |}.

(** The one fork the second forge lists. *)
Lemma get_forks_are_forks_witness :
  Forall (fun f => _is_fork f = true /\ read_only f = false)
    [Lab.alice2s_fork].
Proof.
  assert (Hforks :
    get_forks unit Demo.pagure_io Lab.call_api (fresh Demo.ogr)
    = (inr [Lab.alice2s_fork], after_call projects_request Demo.ogr))
    by (vm_compute; reflexivity).
  exact (proj1 (get_forks_are_forks unit Demo.pagure_io Lab.call_api _ _ _
                  Hforks)).
Defined.

Local Abbreviation ogr_parent :=
  {| repo := "ogr"; namespace := Some "rpms"; _username := None;
     _is_fork := false; read_only := false |}.

(** The parent of alice's fork on the second forge. *)
Lemma parent_is_no_fork_witness :
  fst (parent unit Demo.pagure_io Lab.call_api Demo.get_username
         (fresh Demo.alices_fork)) = inr (Some ogr_parent)
  /\ _is_fork ogr_parent = false.
Proof.
  destruct (parent unit Demo.pagure_io Lab.call_api Demo.get_username
              (fresh Demo.alices_fork)) as [r st'] eqn:E.
  assert (Hr : r = inr (Some ogr_parent)).
  { apply (f_equal fst) in E. revert E. vm_compute. congruence. }
  subst r. split; [reflexivity|].
  exact (proj1 (parent_is_no_fork unit Demo.pagure_io Lab.call_api
                  Demo.get_username _ _ _ E)).
Defined.

Local Abbreviation lab_fork_create :=
  (fork_create unit Demo.pagure_io Lab.call_api Demo.get_username
     (fun st : state unit => (inr (this st), st))).
Local Abbreviation fork_post :=
  {| url := "https://pagure.io/api/0/fork"; method := Some "POST";
     params := None;
     data := Some {[ "repo" := JStr "ogr"; "namespace" := JStr "rpms";
                     "wait" := JBool true ]} |}.

(** Forking the demo project on the second forge. *)
Lemma fork_create_posts_first_witness :
  lab_fork_create (fresh Demo.ogr)
  = _construct_fork_project unit Demo.pagure_io Demo.get_username
      (after_call fork_post Demo.ogr).
Proof.
  assert (Hpost :
    Lab.call_api
      {| url := get_api_url Demo.pagure_io [Some "fork"] true;
         method := Some "POST"; params := None;
         data := Some {[ "repo" := JStr (repo Demo.ogr);
                         "namespace" := of_optional_str (namespace Demo.ogr);
                         "wait" := JBool true ]} |} tt
    = (inr (JDict ∅), tt))
    by (vm_compute; reflexivity).
  pose proof (fork_create_posts_first unit Demo.pagure_io Lab.call_api
                Demo.get_username (fun st : state unit => (inr (this st), st))
                (fresh Demo.ogr) eq_refl (inr (JDict ∅)) tt Hpost) as H.
  exact (proj1 H).
Defined.

(** The fork of the demo project that [get_fork] finds on the second forge
    is alice2's, and it is a fork. *)
Lemma get_fork_gives_a_fork_witness :
  exists f : PagureProject,
    fst (lab_get_fork true (fresh Demo.ogr)) = inr (Some f)
    /\ _is_fork f = true.
Proof.
  assert (Hf : fst (lab_get_fork true (fresh Demo.ogr))
               = inr (Some Lab.alice2s_fork))
    by (vm_compute; reflexivity).
  exists Lab.alice2s_fork. split; [exact Hf|].
  refine (get_fork_gives_a_fork unit Demo.pagure_io Lab.call_api
            Lab.call_api_raw Demo.get_username
            (fun st : state unit => (inr (this st), st))
            (fresh Demo.ogr) (snd (lab_get_fork true (fresh Demo.ogr)))
            true Lab.alice2s_fork (fun _ => eq_refl) _).
  rewrite <- Hf. apply surjective_pairing.
Defined.

Local Abbreviation alice2_info_request :=
  {| url := "https://pagure.io/api/0/fork/alice2/rpms/ogr";
     method := Some "GET"; params := None; data := None |}.

(** alice is not alice2, but her name is in alice2's: the fork is taken for
    hers. *)
Lemma find_own_fork_by_substring_witness :
  fst (find_own_fork unit Demo.pagure_io Lab.call_api Demo.get_username
         [Lab.alice2s_fork] (fresh Demo.ogr))
  = inr (Some Lab.alice2s_fork).
Proof.
  assert (Hinfo :
    on unit Lab.alice2s_fork
      (get_project_info unit Demo.pagure_io Lab.call_api Demo.get_username)
      (fresh Demo.ogr)
    = (inr (Lab.fork_info, Lab.alice2s_fork),
       after_call alice2_info_request Demo.ogr))
    by (vm_compute; reflexivity).
  assert (Huser :
    _user unit Demo.get_username (after_call alice2_info_request Demo.ogr)
    = (inr "alice",
       {| forge := tt;
          trace := [CallApi alice2_info_request; GetUsername [Demo.whoami]];
          this := ogr_of_alice |}))
    by (vm_compute; reflexivity).
  assert (Howner :
    getitem Lab.fork_info "user" = inr (JDict {[ "name" := JStr "alice2" ]}))
    by (vm_compute; reflexivity).
  assert (Hname :
    getitem (JDict {[ "name" := JStr "alice2" ]}) "name" = inr (JStr "alice2"))
    by (vm_compute; reflexivity).
  pose proof (find_own_fork_by_substring unit Demo.pagure_io Lab.call_api
                Demo.get_username _ _ _ _ _ [] _ _ _ _
                Hinfo Huser Howner Hname) as H.
  refine (f_equal fst (proj1 H _)).
  exists "", "2". reflexivity.
Defined.

(** The name of alice's fork is the path of its URL. *)
Lemma full_repo_name_is_url_path_witness :
  exists parts : list (option string),
    demo_url [] true true (fresh Demo.alices_fork)
      = (inr (get_api_url Demo.pagure_io parts true), fresh Demo.alices_fork)
    /\ String.concat "/" (omap id parts) = "fork/alice/rpms/ogr".
Proof.
  refine (full_repo_name_is_url_path unit Demo.pagure_io Demo.get_username
            (fresh Demo.alices_fork) (fresh Demo.alices_fork)
            "fork/alice/rpms/ogr" true _ eq_refl).
  discriminate.
Defined.

(** A pull request on the demo project, with and without a fork user. *)
Lemma create_pr_ignores_fork_username_witness :
  create_pr unit string
    (fun title body target_branch source_branch => stand_in title)
    pr_stand_in "title" "body" "master" "topic" (Some "bob") (fresh Demo.ogr)
  = create_pr unit string
      (fun title body target_branch source_branch => stand_in title)
      pr_stand_in "title" "body" "master" "topic" None (fresh Demo.ogr).
Proof.
  apply create_pr_ignores_fork_username. reflexivity.
Defined.
